(** * Slack guest-expiration notifier: a shallow embedding

    This development embeds [slack_guests_wo_exp.js] (Google Apps Script)
    and proves properties of its three functions

      - [notifySlackAboutGuestsWithoutExpiration]
      - [encodeQueryData]
      - [postToSlack]

    The script talks to two Slack endpoints through [UrlFetchApp.fetch] and
    writes to [Logger].  Both are effects: they are recorded, in order, in a
    trace of events.  What the endpoints answer is an input of the model: a
    scripted list of outcomes for [admin.users.list], consumed one per request,
    and one outcome for [chat.postMessage].

    JavaScript completions ([return], [throw]) are modelled explicitly, so
    that "no exception leaves the function" is a statement and not a
    consequence of the types. *)

From Stdlib Require Import String Ascii List ZArith Bool Arith Lia.
From Stdlib Require Import DecimalString Permutation.
Import ListNotations.

Local Open Scope string_scope.
Local Open Scope list_scope.

(** String concatenation, JavaScript's [+] on strings. *)
Notation "a +++ b" := (String.append a b) (right associativity, at level 60).

(* ================================================================= *)
(** ** JavaScript values and strings *)

Module Js.

(** The primitive values the script stores in objects it builds itself.
    Numbers are the integers (the script only handles a page size and
    epoch seconds). *)
Inductive value : Type :=
| Undefined
| Null
| Bool (b : bool)
| Num (n : Z)
| Str (s : string).

(** [v !== undefined] *)
Definition is_defined (v : value) : bool :=
  match v with
  | Undefined => false
  | _ => true
  end.

(** Decimal rendering of an integer, as [String(n)] gives it for the
    integers a number holds exactly and below 10^21 in magnitude (beyond,
    JavaScript rounds and switches to exponent notation). *)
Definition string_of_Z (n : Z) : string :=
  NilZero.string_of_int (Z.to_int n).

Definition string_of_nat (n : nat) : string :=
  NilZero.string_of_uint (Nat.to_uint n).

(** ToString *)
Definition to_string (v : value) : string :=
  match v with
  | Undefined => "undefined"
  | Null => "null"
  | Bool true => "true"
  | Bool false => "false"
  | Num n => string_of_Z n
  | Str s => s
  end.

(** ToString of a property that may be absent: [undefined] prints as
    the word. *)
Definition show (o : option string) : string :=
  match o with
  | Some s => s
  | None => "undefined"
  end.

(** Truthiness of a string: every string but the empty one. *)
Definition truthy (s : string) : bool :=
  negb (s =? "").

(** Truthiness of a property that may be absent. *)
Definition truthy_opt (o : option string) : bool :=
  match o with
  | Some s => truthy s
  | None => false
  end.

(** [s.endsWith(suffix)] *)
Definition endsWith (s suffix : string) : bool :=
  let n := String.length s in
  let m := String.length suffix in
  if (m <=? n)%nat then substring (n - m) m s =? suffix else false.

(** [parts.join(sep)] *)
Definition join (sep : string) (parts : list string) : string :=
  String.concat sep parts.

(** The line feed of the message template. *)
Definition LF : string := String (ascii_of_nat 10) EmptyString.

(** *** encodeURIComponent

    Strings are sequences of UTF-8 bytes; [encodeURIComponent] keeps the
    unreserved ASCII characters [A-Z a-z 0-9 - _ . ! ~ * ' ( )] and writes
    every other byte as [%XX] in upper-case hexadecimal. *)
Definition unreserved (c : ascii) : bool :=
  let n := nat_of_ascii c in
  ((65 <=? n) && (n <=? 90)          (* A-Z *)
   || (97 <=? n) && (n <=? 122)      (* a-z *)
   || (48 <=? n) && (n <=? 57)       (* 0-9 *)
   || (n =? 45) || (n =? 95) || (n =? 46) || (n =? 33)  (* - _ . ! *)
   || (n =? 126) || (n =? 42) || (n =? 39)              (* ~ * ' *)
   || (n =? 40) || (n =? 41))%nat.                      (* ( ) *)

Definition hex_digit (n : nat) : ascii :=
  if (n <? 10)%nat then ascii_of_nat (48 + n) else ascii_of_nat (55 + n).

Fixpoint encodeURIComponent (s : string) : string :=
  match s with
  | EmptyString => EmptyString
  | String c rest =>
      if unreserved c
      then String c (encodeURIComponent rest)
      else
        let n := nat_of_ascii c in
        String "%" (String (hex_digit (n / 16)) (String (hex_digit (n mod 16))
          (encodeURIComponent rest)))
  end.

(** *** Date.prototype.toISOString

    [new Date(ms).toISOString()] for an integral time value in
    milliseconds.  A time value beyond 8.64e15 in magnitude is an invalid
    date, for which [toISOString] throws a [RangeError]. *)

Definition max_time : Z := 8640000000000000.

(** An [Error] object; the script only ever reads [e.message]. *)
Record Error : Type := mkError { message : string }.

Fixpoint zeros (n : nat) : string :=
  match n with
  | O => EmptyString
  | S k => String "0" (zeros k)
  end.

Definition pad_left (width : nat) (s : string) : string :=
  zeros (width - String.length s) +++ s.

Definition digits (width : nat) (n : Z) : string :=
  pad_left width (string_of_Z n).

(** Year, month and day of a day number counted from 1970-01-01, in the
    proleptic Gregorian calendar. *)
Definition civil_from_days (days : Z) : Z * Z * Z :=
  let z := (days + 719468)%Z in
  let era := (z / 146097)%Z in
  let doe := (z - era * 146097)%Z in
  let yoe := ((doe - doe / 1460 + doe / 36524 - doe / 146096) / 365)%Z in
  let doy := (doe - (365 * yoe + yoe / 4 - yoe / 100))%Z in
  let mp := ((5 * doy + 2) / 153)%Z in
  let d := (doy - (153 * mp + 2) / 5 + 1)%Z in
  let m := if (mp <? 10)%Z then (mp + 3)%Z else (mp - 9)%Z in
  let y := (yoe + era * 400)%Z in
  (if (m <=? 2)%Z then (y + 1)%Z else y, m, d).

Definition iso_year (y : Z) : string :=
  if ((0 <=? y) && (y <=? 9999))%Z then digits 4 y
  else if (y <? 0)%Z then "-" +++ digits 6 (- y)
  else "+" +++ digits 6 y.

Definition toISOString (ms : Z) : Error + string :=
  if (Z.abs ms >? max_time)%Z
  then inl (mkError "Invalid time value")
  else
    let day := (ms / 86400000)%Z in
    let rest := (ms mod 86400000)%Z in
    let '(y, m, d) := civil_from_days day in
    inr (iso_year y +++ "-" +++ digits 2 m +++ "-" +++ digits 2 d +++ "T"
         +++ digits 2 (rest / 3600000) +++ ":"
         +++ digits 2 (rest / 60000 mod 60) +++ ":"
         +++ digits 2 (rest / 1000 mod 60) +++ "."
         +++ digits 3 (rest mod 1000) +++ "Z").

(** *** JSON.stringify on a flat object

    The text of an object whose members are primitive values, as
    [JSON.stringify] writes it: members in enumeration order, [undefined]
    members left out, strings quoted with the two-character escapes and
    [\u00xx] for the other control characters. *)

Definition quote : string := String (ascii_of_nat 34) EmptyString.
Definition backslash : string := String (ascii_of_nat 92) EmptyString.

Definition hex_digit_lower (n : nat) : ascii :=
  if (n <? 10)%nat then ascii_of_nat (48 + n) else ascii_of_nat (87 + n).

Definition escape_char (c : ascii) : string :=
  let n := nat_of_ascii c in
  if (n =? 34)%nat then backslash +++ quote
  else if (n =? 92)%nat then backslash +++ backslash
  else if (n =? 8)%nat then backslash +++ "b"
  else if (n =? 9)%nat then backslash +++ "t"
  else if (n =? 10)%nat then backslash +++ "n"
  else if (n =? 12)%nat then backslash +++ "f"
  else if (n =? 13)%nat then backslash +++ "r"
  else if (n <? 32)%nat
       then backslash +++ "u00" +++
            String (hex_digit_lower (n / 16))
              (String (hex_digit_lower (n mod 16)) EmptyString)
  else String c EmptyString.

Fixpoint escape (s : string) : string :=
  match s with
  | EmptyString => EmptyString
  | String c rest => escape_char c +++ escape rest
  end.

Definition json_string (s : string) : string := quote +++ escape s +++ quote.

Definition json_value (v : value) : option string :=
  match v with
  | Undefined => None
  | Str s => Some (json_string s)
  | other => Some (to_string other)
  end.

Definition json_members (fields : list (string * value)) : list string :=
  flat_map (fun '(k, v) =>
              match json_value v with
              | Some text => [json_string k +++ ":" +++ text]
              | None => []
              end) fields.

Definition stringify_object (fields : list (string * value)) : string :=
  "{" +++ join "," (json_members fields) +++ "}".

End Js.

(* ================================================================= *)
(** ** Data: what Slack returns and what the script builds *)

(** A user object of [admin.users.list], restricted to the attributes the
    script reads, each with the type Slack gives it: strings, booleans and
    integers (epoch seconds).  Every attribute may be missing from the JSON:
    [None] is an absent attribute; a missing flag is [undefined], which is
    falsy, hence [false] here. *)
Module User.
Record t : Type := mk {
  id : option string;
  email : option string;
  full_name : option string;
  is_deleted : bool;
  is_restricted : bool;
  is_ultra_restricted : bool;
  expiration_ts : option Z;
  date_created : option Z
}.
End User.

(** An entry of [guestsWithoutExpiration]. *)
Module Guest.
Record t : Type := mk {
  email : option string;
  creation_time : string;
  name : option string;
  id : option string
}.
End Guest.

(** The parsed body of an [admin.users.list] response.  [users] is [None]
    when the attribute is missing or is not an array. *)
Module UsersList.
Record metadata : Type := mkMetadata { next_cursor : option string }.
Record t : Type := mk {
  ok : bool;
  error : option string;
  users : option (list User.t);
  response_metadata : option metadata
}.
End UsersList.

(** The parsed body of a [chat.postMessage] response. *)
Module PostMessage.
Record t : Type := mk {
  ok : bool;
  error : option string
}.
End PostMessage.

(** What one [UrlFetchApp.fetch] followed by [JSON.parse] yields: either of
    the two throws, or there is a response text and its parsed value. *)
Inductive Outcome (A : Type) : Type :=
| Throws (e : Js.Error)
| Responds (content : string) (data : A).
Arguments Throws {A} e.
Arguments Responds {A} content data.

(** The endpoints as the script sees them: the answers to the successive
    [admin.users.list] requests, and the answer to [chat.postMessage]. *)
Record Mock : Type := mkMock {
  admin_users_list : list (Outcome UsersList.t);
  chat_postMessage : Outcome PostMessage.t
}.

(** The values the script reads from its surroundings: the script property
    [SLACK_USER_TOKEN] ([None] when [getProperty] returns [null]) and the two
    identifiers the source asks to be filled in. *)
Record Config : Type := mkConfig {
  SLACK_USER_TOKEN : option string;
  teamId : string;
  channel : string
}.

(** The file as it is checked in leaves both identifiers empty. *)
Definition as_checked_in (token : option string) : Config :=
  {| SLACK_USER_TOKEN := token; teamId := ""; channel := "" |}.

(* ================================================================= *)
(** ** Effects: the trace, completions and the monad *)

Record Request : Type := mkRequest {
  url : string;
  method : string;
  headers : list (string * string);
  payload : string
}.

Inductive Event : Type :=
| Log (msg : string)            (* Logger.log(msg) *)
| Fetch (req : Request).        (* UrlFetchApp.fetch(url, options) *)

Definition Trace : Type := list Event.

(** How a piece of code ends: normally with a value, by [return;], or by a
    thrown error. *)
Inductive Completion (A : Type) : Type :=
| Normal (a : A)
| Returned
| Thrown (e : Js.Error).
Arguments Normal {A} a.
Arguments Returned {A}.
Arguments Thrown {A} e.

(** A computation yields the events it caused and its completion; [None]
    means that the mock had no answer left for a request. *)
Definition M (A : Type) : Type := option (Trace * Completion A).

Definition ret {A} (a : A) : M A := Some ([], Normal a).

Definition bind {A B} (m : M A) (k : A -> M B) : M B :=
  match m with
  | None => None
  | Some (t, Normal a) =>
      match k a with
      | None => None
      | Some (t', c) => Some (t ++ t', c)
      end
  | Some (t, Returned) => Some (t, Returned)
  | Some (t, Thrown e) => Some (t, Thrown e)
  end.

Notation "x <- m ;; k" := (bind m (fun x => k))
  (at level 61, m at next level, right associativity).
Notation "' pat <- m ;; k" := (bind m (fun x => match x with pat => k end))
  (at level 61, pat pattern, m at next level, right associativity).
Notation "m ;; k" := (bind m (fun _ => k))
  (at level 61, right associativity).

(** [return;] *)
Definition return_ {A} : M A := Some ([], Returned).

(** [throw e] *)
Definition throw {A} (e : Js.Error) : M A := Some ([], Thrown e).

(** [Logger.log(msg)] *)
Definition log (msg : string) : M unit := Some ([Log msg], Normal tt).

(** [try { body } catch (e) { handler }] *)
Definition tryCatch {A} (body : M A) (handler : Js.Error -> M A) : M A :=
  match body with
  | Some (t, Thrown e) =>
      match handler e with
      | None => None
      | Some (t', c) => Some (t ++ t', c)
      end
  | other => other
  end.

(** A call: a body that ended by [return;] has completed the call, and the
    caller goes on with [a]; an error thrown in the body leaves the call. *)
Definition call {A} (a : A) (body : M A) : M A :=
  match body with
  | Some (t, Returned) => Some (t, Normal a)
  | other => other
  end.

(** [JSON.parse(UrlFetchApp.fetch(url, options).getContentText())], with the
    response text kept for the log. *)
Definition fetch {A} (req : Request) (reply : Outcome A) : M (string * A) :=
  match reply with
  | Throws e => Some ([Fetch req], Thrown e)
  | Responds content data => Some ([Fetch req], Normal (content, data))
  end.

(** [array.forEach(callback)] where the callback updates a captured
    variable of type [S]. *)
Fixpoint forEach {A S} (callback : A -> S -> M S) (array : list A) (s : S) : M S :=
  match array with
  | [] => ret s
  | x :: rest => s' <- callback x s ;; forEach callback rest s'
  end.

(* ================================================================= *)
(** ** JSON.stringify *)

(** [JSON.stringify] is applied to three kinds of objects: a user (for the
    log), a response body (for the log) and the object posted to Slack.  The
    user and response objects carry more attributes than the model keeps, so
    their texts are left to an interface; the posted object is built by the
    script and its text is computed. *)
Class Stringify (A : Type) : Type := JSON_stringify : A -> string.

#[global] Instance stringify_object : Stringify (list (string * Js.value)) :=
  Js.stringify_object.

(** Texts for users and response bodies that carry exactly the attributes
    of the model, used to run the script on examples. *)
Module Sample.

Definition opt_str (o : option string) : Js.value :=
  match o with Some s => Js.Str s | None => Js.Undefined end.

Definition opt_num (o : option Z) : Js.value :=
  match o with Some n => Js.Num n | None => Js.Undefined end.

Definition user : Stringify User.t := fun u =>
  Js.stringify_object
    [("id", opt_str (User.id u));
     ("email", opt_str (User.email u));
     ("full_name", opt_str (User.full_name u));
     ("is_deleted", Js.Bool (User.is_deleted u));
     ("is_restricted", Js.Bool (User.is_restricted u));
     ("is_ultra_restricted", Js.Bool (User.is_ultra_restricted u));
     ("expiration_ts", opt_num (User.expiration_ts u));
     ("date_created", opt_num (User.date_created u))].

Definition member (k text : string) : string :=
  Js.json_string k +++ ":" +++ text.

Definition data : Stringify UsersList.t := fun d =>
  "{" +++
  Js.join ","
    ([member "ok" (Js.to_string (Js.Bool (UsersList.ok d)))]
     ++ match UsersList.error d with
        | Some e => [member "error" (Js.json_string e)]
        | None => []
        end
     ++ match UsersList.users d with
        | Some us => [member "users" ("[" +++ Js.join "," (map user us) +++ "]")]
        | None => []
        end
     ++ match UsersList.response_metadata d with
        | Some md =>
            [member "response_metadata"
               (Js.stringify_object
                  [("next_cursor", opt_str (UsersList.next_cursor md))])]
        | None => []
        end)
  +++ "}".

End Sample.

(* ================================================================= *)
(** ** The script *)

(** *** encodeQueryData

    The argument is the object as [for (let d in data)] walks it: its keys
    in enumeration order, each with its value. *)
Definition encodeQueryData (data : list (string * Js.value)) : string :=
  let ret :=
    fold_left
      (fun ret '(d, v) =>
         if Js.is_defined v
         then ret ++ [Js.encodeURIComponent d +++ "=" +++
                      Js.encodeURIComponent (Js.to_string v)]
         else ret)
      data []
  in
  Js.join "&" ret.

Definition users_list_url : string := "https://slack.com/api/admin.users.list".
Definition post_message_url : string := "https://slack.com/api/chat.postMessage".
Definition excluded_domain : string := "@domain.com".

(** The template of one entry of the message. *)
Definition renderGuest (g : Guest.t) : string :=
  "*Email*: " +++ Js.show (Guest.email g) +++ Js.LF +++
  "*Name*: " +++ Js.show (Guest.name g) +++ Js.LF +++
  "*Creation Time*: " +++ Guest.creation_time g +++ Js.LF +++
  "*User ID*: " +++ Js.show (Guest.id g).

Definition formatMessage (guests : list Guest.t) : string :=
  "Active guests without expiration:" +++ Js.LF +++
  Js.join (Js.LF +++ Js.LF) (map renderGuest guests).

(** The payload of an [admin.users.list] request. *)
Definition listPayload (token teamId : string) (limit : Z) (cursor : string)
  : list (string * Js.value) :=
  let payload :=
    [("token", Js.Str token); ("team_id", Js.Str teamId); ("limit", Js.Num limit)] in
  if Js.truthy cursor
  then payload ++ [("cursor", Js.Str cursor)]
  else payload.

Definition listRequest (token teamId : string) (limit : Z) (cursor : string) : Request :=
  {| url := users_list_url;
     method := "post";
     headers := [("Authorization", "Bearer " +++ token);
                 ("Content-Type", "application/x-www-form-urlencoded")];
     payload := encodeQueryData (listPayload token teamId limit cursor) |}.

(** The [url] and [options] of the [chat.postMessage] request. *)
Definition postOptions (channel message token : string) : Request :=
  let payload := [("channel", Js.Str channel); ("text", Js.Str message)] in
  {| url := post_message_url;
     method := "post";
     headers := [("Authorization", "Bearer " +++ token);
                 ("Content-Type", "application/json")];
     payload := JSON_stringify payload |}.

(** [user.expiration_ts == 0 || user.expiration_ts === undefined] *)
Definition noExpiration (user : User.t) : bool :=
  match User.expiration_ts user with
  | Some ts => (ts =? 0)%Z
  | None => true
  end.

(** [!user.is_restricted && !user.is_ultra_restricted] *)
Definition notGuest (user : User.t) : bool :=
  negb (User.is_restricted user) && negb (User.is_ultra_restricted user).

(** [user.email && user.email.endsWith("@domain.com")] *)
Definition excludedEmail (user : User.t) : bool :=
  match User.email user with
  | Some email => Js.truthy email && Js.endsWith email excluded_domain
  | None => false
  end.

(** The creation time shown for a user: the ISO text of [date_created]
    seconds, or ['Unknown'] when the attribute is missing, zero, or not a
    valid date. *)
Definition creationTimeOf (user : User.t) : M string :=
  let creationTime := "Unknown" in
  match User.date_created user with
  | Some seconds =>
      if (seconds =? 0)%Z
      then log ("No creation date for user " +++ Js.show (User.id user)) ;;
           ret creationTime
      else
        tryCatch
          (match Js.toISOString (seconds * 1000) with
           | inr text => ret text
           | inl e => throw e
           end)
          (fun e =>
             log ("Error processing creation date for user " +++
                  Js.show (User.id user) +++ ": " +++ Js.message e) ;;
             ret creationTime)
  | None =>
      log ("No creation date for user " +++ Js.show (User.id user)) ;;
      ret creationTime
  end.

(** [(data.response_metadata && data.response_metadata.next_cursor)
      ? data.response_metadata.next_cursor : ""] *)
Definition nextCursor (data : UsersList.t) : string :=
  match UsersList.response_metadata data with
  | Some md =>
      match UsersList.next_cursor md with
      | Some c => if Js.truthy c then c else ""
      | None => ""
      end
  | None => ""
  end.

Section Script.

Context {stringify_user : Stringify User.t}.
Context {stringify_data : Stringify UsersList.t}.

(** The callback of [users.forEach]; [guests] is the captured array
    [guestsWithoutExpiration], returned as the call leaves it. *)
Definition processUser (user : User.t) (guests : list Guest.t) : M (list Guest.t) :=
  call guests
    (log ("Processing user: " +++ JSON_stringify user) ;;
     if User.is_deleted user
     then log ("Skipping user (deleted): " +++ Js.show (User.id user)) ;;
          return_
     else
     if notGuest user
     then log ("Skipping user (not a guest): " +++ Js.show (User.id user)) ;;
          return_
     else
     if excludedEmail user
     then log ("Skipping user (OnePeloton email): " +++ Js.show (User.id user)) ;;
          return_
     else
     if noExpiration user
     then
       creationTime <- creationTimeOf user ;;
       ret (guests ++ [ {| Guest.email := User.email user;
                           Guest.creation_time := creationTime;
                           Guest.name := User.full_name user;
                           Guest.id := User.id user |} ])
     else ret guests).

(** One run of the body of the [do ... while] loop, given the answer to
    its request.  It yields the array and the cursor as the body leaves
    them. *)
Definition fetchPage (token teamId : string) (limit : Z)
           (cursor : string) (guests : list Guest.t)
           (reply : Outcome UsersList.t) : M (list Guest.t * string) :=
  '(content, data) <- fetch (listRequest token teamId limit cursor) reply ;;
  if negb (UsersList.ok data)
  then log ("Error fetching data from Slack API: " +++ Js.show (UsersList.error data)) ;;
       log ("Response: " +++ content) ;;
       return_
  else
    let users := UsersList.users data in
    let cursor := nextCursor data in
    match users with
    | None =>
        log ("Unexpected data structure for users: " +++ JSON_stringify data) ;;
        return_
    | Some users =>
        log ("Total users retrieved in this batch: " +++
             Js.string_of_nat (length users)) ;;
        guests <- forEach processUser users guests ;;
        ret (guests, cursor)
    end.

(** [do { ... } while (cursor)], one reply consumed per iteration. *)
Fixpoint doWhile (token teamId : string) (limit : Z)
         (replies : list (Outcome UsersList.t))
         (cursor : string) (guests : list Guest.t) : M (list Guest.t) :=
  match replies with
  | [] => None
  | reply :: replies =>
      '(guests, cursor) <- fetchPage token teamId limit cursor guests reply ;;
      if Js.truthy cursor
      then doWhile token teamId limit replies cursor guests
      else ret guests
  end.

Definition postToSlack (channel message token : string)
           (reply : Outcome PostMessage.t) : M unit :=
  let options := postOptions channel message token in
  call tt
    (tryCatch
       ('(content, result) <- fetch options reply ;;
        if negb (PostMessage.ok result)
        then log ("Error posting to Slack: " +++ Js.show (PostMessage.error result)) ;;
             log ("Full response: " +++ content)
        else log ("Message posted successfully to Slack channel " +++ channel))
       (fun e => log ("An error occurred while posting to Slack: " +++ Js.message e))).

(** The [try] block of [notifySlackAboutGuestsWithoutExpiration]. *)
Definition notifyBody (cfg : Config) (mock : Mock) : M unit :=
  let teamId := teamId cfg in
  let channel := channel cfg in
  let guestsWithoutExpiration := [] in
  let cursor := "" in
  let limit := 100%Z in
  let missing : M unit :=
    log "SLACK_USER_TOKEN is missing in script properties." ;; return_ in
  match SLACK_USER_TOKEN cfg with
  | None => missing
  | Some token =>
      if negb (Js.truthy token)
      then missing
      else
      if negb (Js.truthy teamId)
      then log "Team ID is missing." ;; return_
      else
        guestsWithoutExpiration <-
          doWhile token teamId limit (admin_users_list mock)
                  cursor guestsWithoutExpiration ;;
        log ("Guests without expiration found: " +++
             Js.string_of_nat (length guestsWithoutExpiration)) ;;
        if (0 <? length guestsWithoutExpiration)%nat
        then
          let message := formatMessage guestsWithoutExpiration in
          postToSlack channel message token (chat_postMessage mock)
        else log "No active guests without expiration found."
  end.

(** The entry point: the [try] block with its [catch], as a call. *)
Definition notifySlackAboutGuestsWithoutExpiration (cfg : Config) (mock : Mock)
  : M unit :=
  call tt
    (tryCatch (notifyBody cfg mock)
              (fun e => log ("An error occurred: " +++ Js.message e))).

End Script.

(* ================================================================= *)
(** ** Reading a trace *)

(** The requests of a trace, in order. *)
Definition requests (t : Trace) : list Request :=
  flat_map (fun ev => match ev with Fetch r => [r] | Log _ => [] end) t.

(** The requests sent to [chat.postMessage]. *)
Definition posts (t : Trace) : list Request :=
  filter (fun r => url r =? post_message_url) (requests t).

(** The requests sent to [admin.users.list]. *)
Definition pageRequests (t : Trace) : list Request :=
  filter (fun r => url r =? users_list_url) (requests t).

(** The keys of an object. *)
Definition keys (data : list (string * Js.value)) : list string := map fst data.

(* ================================================================= *)
(** ** What the loop keeps of a user, as functions *)

(** The text the script stores as [creation_time]. *)
Definition creationText (user : User.t) : string :=
  match User.date_created user with
  | Some seconds =>
      if (seconds =? 0)%Z then "Unknown"
      else match Js.toISOString (seconds * 1000) with
           | inr text => text
           | inl _ => "Unknown"
           end
  | None => "Unknown"
  end.

(** The entry pushed for a user. *)
Definition entryOf (user : User.t) : Guest.t :=
  {| Guest.email := User.email user;
     Guest.creation_time := creationText user;
     Guest.name := User.full_name user;
     Guest.id := User.id user |}.

(** The four tests of the callback, in the order the callback makes them. *)
Definition selected (user : User.t) : bool :=
  negb (User.is_deleted user)
  && negb (notGuest user)
  && negb (excludedEmail user)
  && noExpiration user.

(** The entries one page of users adds. *)
Definition matches (users : list User.t) : list Guest.t :=
  map entryOf (filter selected users).

(* ================================================================= *)
(** ** Shapes of replies *)

(** The users of a reply (none when there is no array). *)
Definition usersOf (reply : Outcome UsersList.t) : list User.t :=
  match reply with
  | Responds _ data =>
      match UsersList.users data with
      | Some users => users
      | None => []
      end
  | Throws _ => []
  end.

(** A reply the loop body runs through to its end: an [ok] response with a
    [users] array. *)
Definition isPage (reply : Outcome UsersList.t) : bool :=
  match reply with
  | Responds _ data =>
      UsersList.ok data &&
      match UsersList.users data with Some _ => true | None => false end
  | Throws _ => false
  end.

(** The continuation cursor a reply carries: the empty string when the
    reply is no response, or [next_cursor] is empty or absent. *)
Definition cursorOf (reply : Outcome UsersList.t) : string :=
  match reply with
  | Responds _ data => nextCursor data
  | Throws _ => ""
  end.

(** A page after which the loop goes round again. *)
Definition continues (reply : Outcome UsersList.t) : bool :=
  isPage reply && Js.truthy (cursorOf reply).

(** A page after which the loop ends. *)
Definition final (reply : Outcome UsersList.t) : bool :=
  isPage reply && negb (Js.truthy (cursorOf reply)).

(** A response that is not [ok]. *)
Definition notOk (reply : Outcome UsersList.t) : bool :=
  match reply with
  | Responds _ data => negb (UsersList.ok data)
  | Throws _ => false
  end.

(** A response whose [next_cursor] is empty or absent. *)
Definition lacksCursor (reply : Outcome UsersList.t) : bool :=
  match reply with
  | Responds _ _ => negb (Js.truthy (cursorOf reply))
  | Throws _ => false
  end.

(** A paginated user list: pages only, each but the last with a cursor,
    the last without. *)
Fixpoint paginated (replies : list (Outcome UsersList.t)) : bool :=
  match replies with
  | [] => false
  | reply :: rest =>
      match rest with
      | [] => final reply
      | _ :: _ => continues reply && paginated rest
      end
  end.

(** How the loop ends on the reply after which it does not go round again,
    [guests] being the array before that reply: the array with the page's
    entries when the reply is a page, [return;] when the response is not
    [ok] or has no [users] array, the error when there is no response. *)
Definition stopCompletion (guests : list Guest.t) (reply : Outcome UsersList.t)
  : Completion (list Guest.t) :=
  if isPage reply
  then Normal (guests ++ matches (usersOf reply))
  else match reply with
       | Throws e => Thrown e
       | Responds _ _ => Returned
       end.

(** How the loop body ends on a reply that is not a page. *)
Definition abrupt (reply : Outcome UsersList.t) : Completion (list Guest.t * string) :=
  match reply with
  | Throws e => Thrown e
  | Responds _ _ => Returned
  end.

(** One member as [encodeQueryData] writes it. *)
Definition encodeMember (member : string * Js.value) : string :=
  Js.encodeURIComponent (fst member) +++ "=" +++
  Js.encodeURIComponent (Js.to_string (snd member)).

(** A configuration with which the script gets to its loop. *)
Definition configured (cfg : Config) : bool :=
  Js.truthy_opt (SLACK_USER_TOKEN cfg) && Js.truthy (teamId cfg).

Definition tokenOf (cfg : Config) : string :=
  match SLACK_USER_TOKEN cfg with
  | Some token => token
  | None => ""
  end.

(* ================================================================= *)
(** ** The claims' words *)

Module Spec.

(** "has the restricted flag or the ultra-restricted flag set" *)
Definition is_guest (u : User.t) : Prop :=
  User.is_restricted u = true \/ User.is_ultra_restricted u = true.

(** "the expiration_ts attribute is absent or has the value zero" *)
Definition missing_expiration (u : User.t) : Prop :=
  User.expiration_ts u = None \/ User.expiration_ts u = Some 0%Z.

(** "the user's email is in the excluded domain" *)
Definition in_excluded_domain (u : User.t) : Prop :=
  exists name, User.email u = Some (name +++ excluded_domain).

(** "the user is not deleted, the user is a guest, the user's email is
    not in the excluded domain, and the user is missing an expiration" *)
Definition passes_filter (u : User.t) : Prop :=
  User.is_deleted u = false
  /\ is_guest u
  /\ ~ in_excluded_domain u
  /\ missing_expiration u.

(** "guest records lacking an expiration timestamp" *)
Definition guest_lacking_expiration (u : User.t) : bool :=
  (User.is_restricted u || User.is_ultra_restricted u)
  && match User.expiration_ts u with
     | None => true
     | Some ts => (ts =? 0)%Z
     end.

End Spec.

(* ================================================================= *)
(** ** Inputs for the examples *)

Module Demo.

Definition cfg : Config :=
  {| SLACK_USER_TOKEN := Some "xoxp-test"; teamId := "T0001"; channel := "C0001" |}.

(** A guest without expiration. *)
Definition ann : User.t :=
  User.mk (Some "U1") (Some "ann@partner.org") (Some "Ann") false true false
          None (Some 1722211200%Z).

(** A guest without expiration whose address is in the excluded domain. *)
Definition bob : User.t :=
  User.mk (Some "U2") (Some "bob@domain.com") (Some "Bob") false true false
          None None.

(** A single-channel guest with [expiration_ts] 0, without address, name
    or creation date. *)
Definition cy : User.t :=
  User.mk (Some "U3") None None false false true (Some 0%Z) (Some 0%Z).

(** A deactivated guest without expiration. *)
Definition dee : User.t :=
  User.mk (Some "U4") (Some "dee@partner.org") (Some "Dee") true true false
          None None.

(** A full member. *)
Definition eve : User.t :=
  User.mk (Some "U5") (Some "eve@partner.org") (Some "Eve") false false false
          None None.

(** A guest with an expiration. *)
Definition fay : User.t :=
  User.mk (Some "U6") (Some "fay@partner.org") (Some "Fay") false true false
          (Some 1800000000%Z) (Some 1722211200%Z).

(** A guest without expiration whose creation date is out of range. *)
Definition gus : User.t :=
  User.mk (Some "U7") (Some "gus@partner.org") (Some "Gus") false true false
          (Some 0%Z) (Some 99999999999999999%Z).

Definition page (content : string) (users : list User.t) (cursor : string)
  : Outcome UsersList.t :=
  Responds content
    (UsersList.mk true None (Some users)
       (Some (UsersList.mkMetadata (Some cursor)))).

Definition page1 : Outcome UsersList.t := page "page 1" [ann; bob; cy; dee] "dXNlcjpVNQ==".
Definition page2 : Outcome UsersList.t := page "page 2" [eve; fay; gus] "".

Definition invalid_auth : Outcome UsersList.t :=
  Responds "invalid_auth"
    (UsersList.mk false (Some "invalid_auth") None None).

Definition posted : Outcome PostMessage.t :=
  Responds "posted" (PostMessage.mk true None).

(** Two pages, three matches. *)
Definition two_pages : Mock := mkMock [page1; page2] posted.

(** One page holding a deactivated guest without expiration. *)
Definition deleted_only : Mock := mkMock [page "page" [dee] ""] posted.

(** One page holding a guest without expiration whose address is in the
    excluded domain. *)
Definition excluded_only : Mock := mkMock [page "page" [bob] ""] posted.

(** One page without a match. *)
Definition no_match : Mock := mkMock [page "page" [bob; dee; eve; fay] ""] posted.

(** The second request is refused; a third page is never asked for. *)
Definition refused : Mock := mkMock [page1; invalid_auth; page2] posted.

(** The second request throws. *)
Definition broken : Mock :=
  mkMock [page1; Throws (Js.mkError "Address unavailable")]
         (Throws (Js.mkError "Address unavailable")).

End Demo.

(* ================================================================= *)
(** ** Reading a form body back

    What the receiving end of an [application/x-www-form-urlencoded] body
    does with it: the body is cut at every [&], each part at its first
    [=], and both sides are percent-decoded.  The script has no such
    function; it is the yardstick for what [encodeQueryData] writes. *)

Module Form.

(** The value of a hexadecimal digit. *)
Definition hex_value (c : ascii) : option nat :=
  let n := nat_of_ascii c in
  if ((48 <=? n) && (n <=? 57))%nat then Some (n - 48)
  else if ((65 <=? n) && (n <=? 70))%nat then Some (n - 55)
  else if ((97 <=? n) && (n <=? 102))%nat then Some (n - 87)
  else None.

(** [decodeURIComponent] on byte strings: [%XX] is the byte [XX]. *)
Fixpoint percentDecode (s : string) : string :=
  match s with
  | EmptyString => EmptyString
  | String c rest =>
      if Ascii.eqb c "%"
      then match rest with
           | String h (String l rest') =>
               match hex_value h, hex_value l with
               | Some a, Some b =>
                   String (ascii_of_nat (16 * a + b)) (percentDecode rest')
               | _, _ => String c (percentDecode rest)
               end
           | _ => String c (percentDecode rest)
           end
      else String c (percentDecode rest)
  end.

(** The parts of [s] between the occurrences of [sep]. *)
Fixpoint splitOn (sep : ascii) (s : string) : list string :=
  match s with
  | EmptyString => [EmptyString]
  | String c rest =>
      if Ascii.eqb c sep
      then EmptyString :: splitOn sep rest
      else match splitOn sep rest with
           | part :: parts => String c part :: parts
           | [] => [String c EmptyString]
           end
  end.

(** [s] cut at its first [sep]: what is before it and what is after it. *)
Fixpoint cut (sep : ascii) (s : string) : string * string :=
  match s with
  | EmptyString => (EmptyString, EmptyString)
  | String c rest =>
      if Ascii.eqb c sep
      then (EmptyString, rest)
      else let '(before, after) := cut sep rest in (String c before, after)
  end.

(** The members of a form body, in order. *)
Definition parse (body : string) : list (string * string) :=
  if body =? ""
  then []
  else map (fun part =>
              let '(key, value) := cut "=" part in
              (percentDecode key, percentDecode value))
           (splitOn "&" body).

(** [c] occurs in [s]. *)
Fixpoint occurs (c : ascii) (s : string) : bool :=
  match s with
  | EmptyString => false
  | String c' rest => Ascii.eqb c' c || occurs c rest
  end.

(** Every character of [s] satisfies [p]. *)
Fixpoint every (p : ascii -> bool) (s : string) : bool :=
  match s with
  | EmptyString => true
  | String c rest => p c && every p rest
  end.

(** The characters of a form body: the unreserved ones, [%] with its two
    digits (which are unreserved), [&] and [=]. *)
Definition formChar (c : ascii) : bool :=
  Js.unreserved c || Ascii.eqb c "%" || Ascii.eqb c "&" || Ascii.eqb c "=".

End Form.

(** The members of an object that [encodeQueryData] writes, as the strings
    it writes them from: the defined ones, each value through [ToString]. *)
Definition writtenMembers (data : list (string * Js.value)) : list (string * string) :=
  map (fun member => (fst member, Js.to_string (snd member)))
      (filter (fun member => Js.is_defined (snd member)) data).

(** The log lines of a trace, in order. *)
Definition logged (t : Trace) : list string :=
  flat_map (fun ev => match ev with Log msg => [msg] | Fetch _ => [] end) t.

(** What a run leaves in the log, and how it ends. *)
Definition logOf {A} (m : M A) : option (list string * Completion A) :=
  option_map (fun r => (logged (fst r), snd r)) m.

(** A second configuration for the examples: another token and team, the
    same channel. *)
Module Demo2.

Definition cfg : Config :=
  {| SLACK_USER_TOKEN := Some "xoxp-other"; teamId := "T0002"; channel := "C0001" |}.

(** Two pages that carry the same cursor, and nothing after them. *)
Definition same_cursor : Mock := mkMock [Demo.page1; Demo.page1] Demo.posted.

End Demo2.

(** One character as [encodeURIComponent] writes it, before [rest]. *)
Definition encodeChar (c : ascii) (rest : string) : string :=
  if Js.unreserved c
  then String c rest
  else String "%" (String (Js.hex_digit (nat_of_ascii c / 16))
                     (String (Js.hex_digit (nat_of_ascii c mod 16)) rest)).


(* ================================================================= *)
(** ** What is sent, in the claims' words

    The requests and texts the statements compare the script with, written
    from the record's attributes and from literal texts, not from the
    script's functions. *)

Module Sent.

(** The four lines that list one record. *)
Definition listing (u : User.t) : string :=
  "*Email*: " +++ Js.show (User.email u) +++ Js.LF +++
  "*Name*: " +++ Js.show (User.full_name u) +++ Js.LF +++
  "*Creation Time*: " +++ creationText u +++ Js.LF +++
  "*User ID*: " +++ Js.show (User.id u).

(** The message made of [entries]: the header line, then the entries, a
    blank line between two of them. *)
Definition text (entries : list string) : string :=
  "Active guests without expiration:" +++ Js.LF +++
  Js.join (Js.LF +++ Js.LF) entries.

(** The message that lists [users], in their order. *)
Definition message (users : list User.t) : string :=
  text (map listing users).

(** The request that posts [message] to [channel]. *)
Definition post (token channel message : string) : Request :=
  {| url := "https://slack.com/api/chat.postMessage";
     method := "post";
     headers := [("Authorization", "Bearer " +++ token);
                 ("Content-Type", "application/json")];
     payload := Js.stringify_object
                  [("channel", Js.Str channel); ("text", Js.Str message)] |}.

(** The [next_cursor] a reply carries in its [response_metadata]; the
    empty string when either is absent or there is no response. *)
Definition next_cursor (reply : Outcome UsersList.t) : string :=
  match reply with
  | Responds _ data =>
      match UsersList.response_metadata data with
      | Some md =>
          match UsersList.next_cursor md with
          | Some cursor => cursor
          | None => ""
          end
      | None => ""
      end
  | Throws _ => ""
  end.

(** A response with an empty or absent [next_cursor]. *)
Definition lacks_cursor (reply : Outcome UsersList.t) : bool :=
  match reply with
  | Responds _ _ => next_cursor reply =? ""
  | Throws _ => false
  end.

(** The leading replies that are pages carrying a non-empty cursor. *)
Fixpoint rounds (replies : list (Outcome UsersList.t)) : list (Outcome UsersList.t) :=
  match replies with
  | [] => []
  | reply :: rest =>
      if isPage reply && negb (next_cursor reply =? "")
      then reply :: rounds rest
      else []
  end.

(** A user list that is paginated: every reply is an [ok] response with a
    [users] array, every reply but the last has a [next_cursor] that is
    not empty, and the last has none or an empty one. *)
Fixpoint paginated (replies : list (Outcome UsersList.t)) : bool :=
  match replies with
  | [] => false
  | reply :: rest =>
      isPage reply &&
      match rest with
      | [] => next_cursor reply =? ""
      | _ :: _ => negb (next_cursor reply =? "") && paginated rest
      end
  end.

(** A response body with its [users] array replaced. *)
Definition with_users (data : UsersList.t) (users : list User.t) : UsersList.t :=
  {| UsersList.ok := UsersList.ok data;
     UsersList.error := UsersList.error data;
     UsersList.users := Some users;
     UsersList.response_metadata := UsersList.response_metadata data |}.

(** A request for a page of users with [token] and [team]: a [post] to
    [admin.users.list] with the bearer token, whose form body reads as
    the token, the team, the limit 100 and, when there is one, a cursor. *)
Definition page_request (token team : string) (r : Request) : Prop :=
  url r = "https://slack.com/api/admin.users.list"
  /\ method r = "post"
  /\ headers r = [("Authorization", "Bearer " +++ token);
                  ("Content-Type", "application/x-www-form-urlencoded")]
  /\ exists cursor,
      Form.parse (payload r)
      = [("token", token); ("team_id", team); ("limit", "100")]
        ++ (if cursor =? "" then [] else [("cursor", cursor)]).

End Sent.

(** Inputs for the examples of the order of the message: two pages, the
    first holding two guests to report next to each other, and the same
    pages with the two exchanged. *)
Module Demo3.

Definition body : UsersList.t :=
  UsersList.mk true None None (Some (UsersList.mkMetadata (Some "dXNlcjpVNQ=="))).

Definition pair : Mock :=
  mkMock [Responds "page 1" (Sent.with_users body [Demo.ann; Demo.cy]); Demo.page2]
         Demo.posted.

Definition swapped : Mock :=
  mkMock [Responds "page 1" (Sent.with_users body [Demo.cy; Demo.ann]); Demo.page2]
         Demo.posted.

End Demo3.

(* ================================================================= *)
(** ** Tactics *)

(** Closes a goal [exists t, run = Some (t, c) /\ _] whose run computes. *)
Ltac computes_to := eexists; split; reflexivity.

(** Case analysis on the 256 characters. *)
Ltac each_ascii c :=
  destruct c as [[|] [|] [|] [|] [|] [|] [|] [|]].


(* ================================================================= *)
(** ** Strings *)

Lemma length_append (a b : string) :
  String.length (a +++ b) = String.length a + String.length b.
Proof.
  induction a as [|c a IH]; simpl; [reflexivity | now rewrite IH].
Qed.

Lemma substring_whole (s : string) : substring 0 (String.length s) s = s.
Proof.
  induction s as [|c s IH]; simpl; [reflexivity | now rewrite IH].
Qed.

Lemma substring_skip (p s : string) (m : nat) :
  substring (String.length p) m (p +++ s) = substring 0 m s.
Proof.
  induction p as [|c p IH]; simpl; [reflexivity | exact IH].
Qed.

Lemma substring_split (s : string) (k : nat) :
  k <= String.length s ->
  s = substring 0 k s +++ substring k (String.length s - k) s.
Proof.
  revert k; induction s as [|c s IH]; intros k Hk; simpl in *.
  - destruct k; reflexivity.
  - destruct k as [|k]; simpl.
    + now rewrite substring_whole.
    + f_equal. apply IH. lia.
Qed.

(** [endsWith] holds exactly of the strings that are something followed by
    the suffix. *)
Lemma endsWith_spec (s suffix : string) :
  Js.endsWith s suffix = true <-> exists front, s = front +++ suffix.
Proof.
  unfold Js.endsWith. split.
  - destruct (Nat.leb_spec (String.length suffix) (String.length s)) as [Hle|Hlt];
      [|discriminate].
    intros H. apply String.eqb_eq in H.
    exists (substring 0 (String.length s - String.length suffix) s).
    pose proof (substring_split s (String.length s - String.length suffix)) as Hs.
    replace (String.length s - (String.length s - String.length suffix))
      with (String.length suffix) in Hs by lia.
    rewrite H in Hs. apply Hs. lia.
  - intros [front ->].
    rewrite length_append.
    replace (String.length suffix <=? String.length front + String.length suffix)%nat
      with true by (symmetry; apply Nat.leb_le; lia).
    replace (String.length front + String.length suffix - String.length suffix)
      with (String.length front) by lia.
    rewrite substring_skip, substring_whole. apply String.eqb_refl.
Qed.

Lemma truthy_nonempty (s : string) : Js.truthy s = true <-> s <> "".
Proof.
  unfold Js.truthy. destruct (String.eqb_spec s ""); simpl; split; intros; congruence.
Qed.

Lemma truthy_false (s : string) : Js.truthy s = false <-> s = "".
Proof.
  unfold Js.truthy. destruct (String.eqb_spec s ""); simpl; split; intros; congruence.
Qed.

(** The truthiness test before [endsWith] changes nothing: the empty
    string does not end with the domain. *)
Lemma excludedEmail_spec (u : User.t) :
  excludedEmail u = true <-> Spec.in_excluded_domain u.
Proof.
  unfold excludedEmail, Spec.in_excluded_domain.
  destruct (User.email u) as [e|].
  - rewrite andb_true_iff, endsWith_spec. split.
    + intros [_ [front ->]]. now exists front.
    + intros [front E]. injection E as ->. split; [|now exists front].
      apply truthy_nonempty. destruct front; discriminate.
  - split; [discriminate | intros [? ?]; discriminate].
Qed.

Lemma noExpiration_spec (u : User.t) :
  noExpiration u = true <-> Spec.missing_expiration u.
Proof.
  unfold noExpiration, Spec.missing_expiration.
  destruct (User.expiration_ts u) as [ts|].
  - rewrite Z.eqb_eq. split.
    + intros ->. now right.
    + intros [H|H]; [discriminate | now injection H].
  - split; [now left | reflexivity].
Qed.

Lemma selected_spec (u : User.t) :
  selected u = true <-> Spec.passes_filter u.
Proof.
  unfold selected, notGuest, Spec.passes_filter, Spec.is_guest.
  rewrite !andb_true_iff, !negb_true_iff, <- noExpiration_spec.
  rewrite <- excludedEmail_spec.
  destruct (User.is_restricted u), (User.is_ultra_restricted u),
    (excludedEmail u); simpl; intuition congruence.
Qed.

(* ================================================================= *)
(** ** Traces *)

Lemma requests_app (t1 t2 : Trace) :
  requests (t1 ++ t2) = requests t1 ++ requests t2.
Proof. apply flat_map_app. Qed.

Lemma posts_app (t1 t2 : Trace) : posts (t1 ++ t2) = posts t1 ++ posts t2.
Proof. unfold posts. now rewrite requests_app, filter_app. Qed.

Lemma posts_log (msg : string) (t : Trace) : posts (Log msg :: t) = posts t.
Proof. reflexivity. Qed.

(** Requests to [admin.users.list] are not posts. *)
Lemma filter_posts_listRequests token team limit (cs : list string) :
  filter (fun r => url r =? post_message_url)
         (map (listRequest token team limit) cs) = [].
Proof. induction cs as [|c cs IH]; simpl; [reflexivity | exact IH]. Qed.

Lemma filter_pages_listRequests token team limit (cs : list string) :
  filter (fun r => url r =? users_list_url)
         (map (listRequest token team limit) cs)
  = map (listRequest token team limit) cs.
Proof. induction cs as [|c cs IH]; simpl; [reflexivity | now rewrite IH]. Qed.

(* ================================================================= *)
(** ** The monad *)

Lemma bind_Some {A B} (m : M A) (k : A -> M B) t a :
  m = Some (t, Normal a) ->
  bind m k = match k a with
             | None => None
             | Some (t', c) => Some (t ++ t', c)
             end.
Proof. intros ->. reflexivity. Qed.

Lemma bind_log {B} (msg : string) (k : unit -> M B) :
  bind (log msg) k = match k tt with
                     | None => None
                     | Some (t, c) => Some (Log msg :: t, c)
                     end.
Proof. reflexivity. Qed.

Section Properties.

Context {stringify_user : Stringify User.t}.
Context {stringify_data : Stringify UsersList.t}.

(* --------------------------------------------------------------- *)
(** *** The callback *)

Lemma creationTimeOf_spec (u : User.t) :
  exists t, creationTimeOf u = Some (t, Normal (creationText u))
            /\ requests t = [].
Proof.
  unfold creationTimeOf, creationText.
  destruct (User.date_created u) as [seconds|].
  - destruct (seconds =? 0)%Z.
    + computes_to.
    + destruct (Js.toISOString (seconds * 1000)) as [e|text];
        computes_to.
  - computes_to.
Qed.

Lemma processUser_spec (u : User.t) (gs : list Guest.t) :
  exists t, processUser u gs = Some (t, Normal (gs ++ matches [u]))
            /\ requests t = [].
Proof.
  unfold processUser, matches, selected. simpl.
  destruct (User.is_deleted u); simpl.
  { rewrite app_nil_r. computes_to. }
  destruct (notGuest u); simpl.
  { rewrite app_nil_r. computes_to. }
  destruct (excludedEmail u); simpl.
  { rewrite app_nil_r. computes_to. }
  destruct (noExpiration u); simpl.
  - destruct (creationTimeOf_spec u) as (t & E & R).
    rewrite (bind_Some _ _ _ _ E). simpl.
    eexists. split; [reflexivity|].
    simpl. rewrite requests_app, R. reflexivity.
  - rewrite app_nil_r. computes_to.
Qed.

Lemma matches_app (us vs : list User.t) :
  matches (us ++ vs) = matches us ++ matches vs.
Proof. unfold matches. now rewrite filter_app, map_app. Qed.

Lemma forEach_spec (us : list User.t) (gs : list Guest.t) :
  exists t, forEach processUser us gs = Some (t, Normal (gs ++ matches us))
            /\ requests t = [].
Proof.
  revert gs. induction us as [|u us IH]; intros gs; simpl.
  - exists []. rewrite app_nil_r. split; reflexivity.
  - destruct (processUser_spec u gs) as (t1 & E1 & R1).
    destruct (IH (gs ++ matches [u])) as (t2 & E2 & R2).
    rewrite (bind_Some _ _ _ _ E1), E2.
    exists (t1 ++ t2). split.
    + f_equal. f_equal. f_equal. rewrite <- app_assoc. f_equal.
      change (u :: us) with ([u] ++ us). now rewrite matches_app.
    + now rewrite requests_app, R1, R2.
Qed.

(* --------------------------------------------------------------- *)
(** *** One iteration *)

Lemma fetchPage_page token team limit cursor gs reply :
  isPage reply = true ->
  exists t,
    fetchPage token team limit cursor gs reply
    = Some (Fetch (listRequest token team limit cursor) :: t,
            Normal (gs ++ matches (usersOf reply), cursorOf reply))
    /\ requests t = [].
Proof.
  destruct reply as [e|content data]; simpl; [discriminate|].
  unfold fetchPage. simpl.
  destruct (UsersList.ok data); simpl; [|discriminate].
  destruct (UsersList.users data) as [us|]; [|discriminate].
  intros _.
  destruct (forEach_spec us gs) as (t & E & R).
  rewrite (bind_Some _ _ _ _ E). simpl.
  eexists. split; [reflexivity|].
  simpl. now rewrite app_nil_r.
Qed.

Lemma fetchPage_abrupt token team limit cursor gs reply :
  isPage reply = false ->
  exists t,
    fetchPage token team limit cursor gs reply
    = Some (Fetch (listRequest token team limit cursor) :: t, abrupt reply)
    /\ requests t = [].
Proof.
  destruct reply as [e|content data]; simpl.
  - intros _. exists []. split; reflexivity.
  - unfold fetchPage. simpl.
    destruct (UsersList.ok data); simpl.
    + destruct (UsersList.users data) as [us|]; [discriminate|].
      intros _. computes_to.
    + intros _. computes_to.
Qed.

(* --------------------------------------------------------------- *)
(** *** The loop *)

(** A loop that meets no stopping reply runs out of replies. *)
Lemma doWhile_starved token team limit replies cursor gs :
  forallb continues replies = true ->
  doWhile token team limit replies cursor gs = None.
Proof.
  revert cursor gs. induction replies as [|reply rest IH]; intros cursor gs H.
  - reflexivity.
  - simpl in H. apply andb_true_iff in H as [Hc Hrest].
    unfold continues in Hc. apply andb_true_iff in Hc as [Hp Ht].
    destruct (fetchPage_page token team limit cursor gs reply Hp) as (t & E & R).
    simpl. rewrite (bind_Some _ _ _ _ E). rewrite Ht.
    now rewrite IH.
Qed.

(** A loop that meets a stopping reply ends there: it has sent one
    request per reply up to that one, each after the first with the
    cursor of the reply before, and nothing else. *)
Lemma doWhile_split token team limit pre stop rest cursor gs :
  forallb continues pre = true ->
  continues stop = false ->
  exists t,
    doWhile token team limit (pre ++ stop :: rest) cursor gs
    = Some (t, stopCompletion (gs ++ matches (flat_map usersOf pre)) stop)
    /\ requests t
       = map (listRequest token team limit) (cursor :: map cursorOf pre).
Proof.
  revert cursor gs. induction pre as [|reply pre IH]; intros cursor gs Hpre Hstop.
  - simpl. rewrite app_nil_r. unfold stopCompletion.
    destruct (isPage stop) eqn:Hp.
    + destruct (fetchPage_page token team limit cursor gs stop Hp) as (t & E & R).
      rewrite (bind_Some _ _ _ _ E).
      unfold continues in Hstop. rewrite Hp in Hstop. simpl in Hstop.
      rewrite Hstop. simpl. eexists. split; [reflexivity|].
      simpl. now rewrite app_nil_r, R.
    + destruct (fetchPage_abrupt token team limit cursor gs stop Hp) as (t & E & R).
      rewrite E. destruct stop; simpl; eexists; (split; [reflexivity|]);
        simpl; now rewrite R.
  - simpl in Hpre. apply andb_true_iff in Hpre as [Hc Hpre].
    unfold continues in Hc. apply andb_true_iff in Hc as [Hp Ht].
    destruct (fetchPage_page token team limit cursor gs reply Hp) as (t & E & R).
    destruct (IH (cursorOf reply) (gs ++ matches (usersOf reply)) Hpre Hstop)
      as (t' & E' & R').
    simpl. rewrite (bind_Some _ _ _ _ E), Ht, E'.
    exists ((Fetch (listRequest token team limit cursor) :: t) ++ t'). split.
    + rewrite matches_app, app_assoc. reflexivity.
    + simpl. rewrite requests_app, R, R'. reflexivity.
Qed.

(** Replies of which one stops the loop split at the first such one. *)
Lemma split_at_stop (replies : list (Outcome UsersList.t)) :
  forallb continues replies = false ->
  exists pre stop rest,
    replies = pre ++ stop :: rest
    /\ forallb continues pre = true
    /\ continues stop = false.
Proof.
  induction replies as [|reply replies IH]; simpl; [discriminate|].
  destruct (continues reply) eqn:Hc; simpl.
  - intros H. destruct (IH H) as (pre & stop & rest & -> & Hpre & Hstop).
    exists (reply :: pre), stop, rest. simpl. now rewrite Hc.
  - intros _. now exists [], reply, replies.
Qed.

(** A paginated list is pages that continue, then a final page. *)
Lemma paginated_split (replies : list (Outcome UsersList.t)) :
  paginated replies = true ->
  exists pre last,
    replies = pre ++ [last]
    /\ forallb continues pre = true
    /\ final last = true.
Proof.
  induction replies as [|reply replies IH]; simpl; [discriminate|].
  destruct replies as [|next replies].
  - intros H. now exists [], reply.
  - intros H. apply andb_true_iff in H as [Hc H].
    destruct (IH H) as (pre & last & E & Hpre & Hlast).
    exists (reply :: pre), last. rewrite E. simpl. now rewrite Hc.
Qed.

Lemma final_stops (reply : Outcome UsersList.t) :
  final reply = true -> continues reply = false /\ isPage reply = true.
Proof.
  unfold final, continues. destruct (isPage reply); simpl; [|discriminate].
  rewrite negb_true_iff. now intros ->.
Qed.

(** The loop on a paginated list ends normally with the entries of all
    its pages; it has sent one request per page. *)
Lemma doWhile_paginated token team limit replies cursor gs :
  paginated replies = true ->
  exists t,
    doWhile token team limit replies cursor gs
    = Some (t, Normal (gs ++ matches (flat_map usersOf replies)))
    /\ requests t
       = map (listRequest token team limit)
             (cursor :: map cursorOf (removelast replies)).
Proof.
  intros H. destruct (paginated_split replies H) as (pre & last & -> & Hpre & Hl).
  destruct (final_stops last Hl) as [Hstop Hp].
  destruct (doWhile_split token team limit pre last [] cursor gs Hpre Hstop)
    as (t & E & R).
  exists t. rewrite E, R. unfold stopCompletion. rewrite Hp.
  rewrite removelast_last. split; [|reflexivity].
  rewrite flat_map_app, matches_app, app_assoc. simpl. now rewrite app_nil_r.
Qed.

(** Whatever the replies, a loop that ends has sent requests to
    [admin.users.list] only. *)
Lemma doWhile_requests token team limit replies cursor gs t c :
  doWhile token team limit replies cursor gs = Some (t, c) ->
  exists cs, requests t = map (listRequest token team limit) cs.
Proof.
  intros E.
  destruct (forallb continues replies) eqn:Hall.
  - rewrite (doWhile_starved _ _ _ _ _ _ Hall) in E. discriminate.
  - destruct (split_at_stop replies Hall) as (pre & stop & rest & -> & Hpre & Hs).
    destruct (doWhile_split token team limit pre stop rest cursor gs Hpre Hs)
      as (t' & E' & R').
    rewrite E' in E. injection E as <- _. eauto.
Qed.

(* --------------------------------------------------------------- *)
(** *** After the loop *)

Lemma postToSlack_spec channel message token reply :
  exists t,
    postToSlack channel message token reply
    = Some (Fetch (postOptions channel message token) :: t, Normal tt)
    /\ requests t = [].
Proof.
  unfold postToSlack. destruct reply as [e|content result]; simpl.
  - computes_to.
  - destruct (PostMessage.ok result); simpl; computes_to.
Qed.

Lemma configured_token (cfg : Config) :
  configured cfg = true ->
  SLACK_USER_TOKEN cfg = Some (tokenOf cfg)
  /\ Js.truthy (tokenOf cfg) = true
  /\ Js.truthy (teamId cfg) = true.
Proof.
  unfold configured, tokenOf. destruct (SLACK_USER_TOKEN cfg) as [token|]; simpl.
  - rewrite andb_true_iff. intuition.
  - discriminate.
Qed.

(** With a token and a team the [try] block is the loop and what
    follows it. *)
Lemma notifyBody_configured (cfg : Config) (mock : Mock) :
  configured cfg = true ->
  notifyBody cfg mock
  = (gs <- doWhile (tokenOf cfg) (teamId cfg) 100 (admin_users_list mock) "" [] ;;
     log ("Guests without expiration found: " +++ Js.string_of_nat (length gs)) ;;
     if (0 <? length gs)%nat
     then postToSlack (channel cfg) (formatMessage gs) (tokenOf cfg)
                    (chat_postMessage mock)
     else log "No active guests without expiration found.").
Proof.
  intros H. destruct (configured_token cfg H) as (Ht & Htt & Hteam).
  unfold notifyBody. rewrite Ht, Htt, Hteam. reflexivity.
Qed.

Lemma notify_loop_normal cfg mock t gs :
  configured cfg = true ->
  doWhile (tokenOf cfg) (teamId cfg) 100 (admin_users_list mock) "" []
  = Some (t, Normal gs) ->
  exists t',
    notifySlackAboutGuestsWithoutExpiration cfg mock
    = Some (t ++ Log ("Guests without expiration found: " +++
                      Js.string_of_nat (length gs)) :: t', Normal tt)
    /\ (gs = [] -> t' = [Log "No active guests without expiration found."])
    /\ (gs <> [] ->
        requests t' = [postOptions (channel cfg) (formatMessage gs) (tokenOf cfg)]).
Proof.
  intros Hc E. unfold notifySlackAboutGuestsWithoutExpiration.
  rewrite (notifyBody_configured cfg mock Hc), (bind_Some _ _ _ _ E), bind_log.
  destruct gs as [|g gs].
  - simpl. eexists. split; [reflexivity|]. split; [reflexivity|congruence].
  - cbn [length Nat.ltb Nat.leb].
    destruct (postToSlack_spec (channel cfg) (formatMessage (g :: gs)) (tokenOf cfg)
                (chat_postMessage mock)) as (tp & Ep & Rp).
    rewrite Ep.
    eexists. split; [reflexivity|]. split; [discriminate|].
    intros _. simpl. now rewrite Rp.
Qed.

Lemma notify_loop_returned cfg mock t :
  configured cfg = true ->
  doWhile (tokenOf cfg) (teamId cfg) 100 (admin_users_list mock) "" []
  = Some (t, Returned) ->
  notifySlackAboutGuestsWithoutExpiration cfg mock = Some (t, Normal tt).
Proof.
  intros Hc E. unfold notifySlackAboutGuestsWithoutExpiration.
  rewrite (notifyBody_configured cfg mock Hc), E. reflexivity.
Qed.

Lemma notify_loop_thrown cfg mock t e :
  configured cfg = true ->
  doWhile (tokenOf cfg) (teamId cfg) 100 (admin_users_list mock) "" []
  = Some (t, Thrown e) ->
  notifySlackAboutGuestsWithoutExpiration cfg mock
  = Some (t ++ [Log ("An error occurred: " +++ Js.message e)], Normal tt).
Proof.
  intros Hc E. unfold notifySlackAboutGuestsWithoutExpiration.
  rewrite (notifyBody_configured cfg mock Hc), E. reflexivity.
Qed.

Lemma posts_of_requests (t : Trace) token team limit cs :
  requests t = map (listRequest token team limit) cs -> posts t = [].
Proof. unfold posts. intros ->. apply filter_posts_listRequests. Qed.

(* --------------------------------------------------------------- *)
(** *** Shared facts for the claims *)

(** The callback either appends the user's entry or leaves the array,
    according to the four tests. *)
Lemma processUser_cases (u : User.t) (gs : list Guest.t) :
  exists t,
    (processUser u gs = Some (t, Normal (gs ++ [entryOf u]))
     /\ selected u = true)
    \/ (processUser u gs = Some (t, Normal gs) /\ selected u = false).
Proof.
  destruct (processUser_spec u gs) as (t & E & _). exists t.
  unfold matches in E. simpl in E.
  destruct (selected u); simpl in E.
  - left. now split.
  - right. rewrite app_nil_r in E. now split.
Qed.

Lemma matches_flat_map (replies : list (Outcome UsersList.t)) :
  matches (flat_map usersOf replies)
  = concat (map (fun reply => matches (usersOf reply)) replies).
Proof.
  induction replies as [|reply replies IH]; simpl; [reflexivity|].
  now rewrite matches_app, IH.
Qed.

Lemma lacksCursor_stops (reply : Outcome UsersList.t) :
  lacksCursor reply = true -> continues reply = false.
Proof.
  unfold lacksCursor, continues. destruct reply as [e|content data]; simpl.
  - discriminate.
  - rewrite negb_true_iff. intros ->. apply andb_false_r.
Qed.

Lemma exists_lacksCursor_stops (replies : list (Outcome UsersList.t)) :
  existsb lacksCursor replies = true -> forallb continues replies = false.
Proof.
  induction replies as [|reply replies IH]; simpl; [discriminate|].
  rewrite orb_true_iff. intros [H|H].
  - now rewrite (lacksCursor_stops reply H).
  - rewrite (IH H). apply andb_false_r.
Qed.

Lemma continues_iff (reply : Outcome UsersList.t) :
  continues reply = true <-> isPage reply = true /\ cursorOf reply <> "".
Proof.
  unfold continues. now rewrite andb_true_iff, truthy_nonempty.
Qed.

Lemma forallb_continues (replies : list (Outcome UsersList.t)) :
  forallb continues replies = true ->
  Forall (fun r => isPage r = true /\ cursorOf r <> "") replies.
Proof.
  rewrite forallb_forall, Forall_forall. intros H r Hr.
  now apply continues_iff, H.
Qed.

Lemma encodeQueryData_fold (data : list (string * Js.value)) (ret : list string) :
  fold_left
    (fun ret '(d, v) =>
       if Js.is_defined v
       then ret ++ [Js.encodeURIComponent d +++ "=" +++
                    Js.encodeURIComponent (Js.to_string v)]
       else ret)
    data ret
  = ret ++ map encodeMember (filter (fun member => Js.is_defined (snd member)) data).
Proof.
  revert ret. induction data as [|[d v] data IH]; intros ret; simpl.
  - now rewrite app_nil_r.
  - rewrite IH. destruct (Js.is_defined v); simpl; [|reflexivity].
    now rewrite <- app_assoc.
Qed.

Lemma encodeQueryData_spec (data : list (string * Js.value)) :
  encodeQueryData data
  = Js.join "&" (map encodeMember
                     (filter (fun member => Js.is_defined (snd member)) data)).
Proof. unfold encodeQueryData. now rewrite encodeQueryData_fold. Qed.

Lemma listPayload_cursor token team limit cursor :
  In "cursor" (keys (listPayload token team limit cursor)) <-> cursor <> "".
Proof.
  unfold listPayload. rewrite <- truthy_nonempty.
  destruct (Js.truthy cursor); simpl.
  - intuition.
  - split; [|discriminate]. intros [H|[H|[H|[]]]]; discriminate.
Qed.

(* --------------------------------------------------------------- *)
(** *** The script's texts and requests, in the claims' words *)

Lemma renderGuest_listing (u : User.t) : renderGuest (entryOf u) = Sent.listing u.
Proof. reflexivity. Qed.

Lemma formatMessage_message (users : list User.t) :
  formatMessage (map entryOf users) = Sent.message users.
Proof.
  unfold formatMessage, Sent.message, Sent.text. rewrite map_map. reflexivity.
Qed.

Lemma postOptions_post (channel token : string) (users : list User.t) :
  postOptions channel (formatMessage (map entryOf users)) token
  = Sent.post token channel (Sent.message users).
Proof. unfold postOptions. now rewrite formatMessage_message. Qed.

Lemma cursorOf_next_cursor (reply : Outcome UsersList.t) :
  cursorOf reply = Sent.next_cursor reply.
Proof.
  destruct reply as [e|content data]; simpl; [reflexivity|].
  unfold nextCursor. destruct (UsersList.response_metadata data) as [md|];
    [|reflexivity].
  destruct (UsersList.next_cursor md) as [c|]; [|reflexivity].
  destruct (Js.truthy c) eqn:Hc; [reflexivity|].
  symmetry. now apply truthy_false.
Qed.

Lemma continues_next_cursor (reply : Outcome UsersList.t) :
  continues reply = isPage reply && negb (Sent.next_cursor reply =? "").
Proof. unfold continues. now rewrite cursorOf_next_cursor. Qed.

Lemma rounds_split (pre rest : list (Outcome UsersList.t)) (stop : Outcome UsersList.t) :
  forallb continues pre = true ->
  continues stop = false ->
  Sent.rounds (pre ++ stop :: rest) = pre.
Proof.
  intros Hpre Hstop. induction pre as [|reply pre IH]; simpl.
  - now rewrite <- continues_next_cursor, Hstop.
  - simpl in Hpre. apply andb_true_iff in Hpre as [Hc Hpre].
    now rewrite <- continues_next_cursor, Hc, (IH Hpre).
Qed.

Lemma lacks_cursor_stops (replies : list (Outcome UsersList.t)) :
  existsb Sent.lacks_cursor replies = true -> forallb continues replies = false.
Proof.
  induction replies as [|reply replies IH]; simpl; [discriminate|].
  rewrite orb_true_iff. intros [H|H].
  - rewrite continues_next_cursor.
    destruct reply as [e|content data]; simpl in *; [discriminate|].
    rewrite H. now rewrite andb_false_r.
  - rewrite (IH H). apply andb_false_r.
Qed.

Lemma paginated_sent (replies : list (Outcome UsersList.t)) :
  paginated replies = Sent.paginated replies.
Proof.
  induction replies as [|reply rest IH]; [reflexivity|].
  cbn [paginated Sent.paginated]. unfold final, continues, Js.truthy.
  rewrite cursorOf_next_cursor, negb_involutive.
  destruct rest as [|next rest]; [reflexivity|].
  now rewrite IH, andb_assoc.
Qed.

(** Pages with the same processing and the same cursors are paginated
    alike. *)
Lemma paginated_alike (replies1 replies2 : list (Outcome UsersList.t)) :
  map (fun r => (isPage r, cursorOf r)) replies1
  = map (fun r => (isPage r, cursorOf r)) replies2 ->
  paginated replies1 = paginated replies2.
Proof.
  revert replies2. induction replies1 as [|r1 rest1 IH]; intros [|r2 rest2] H;
    try discriminate; [reflexivity|].
  simpl in H. injection H as Hp Hc Hrest.
  simpl. unfold final, continues. rewrite Hp, Hc.
  destruct rest1 as [|n1 rest1], rest2 as [|n2 rest2]; try discriminate;
    [reflexivity|].
  now rewrite (IH _ Hrest).
Qed.

(** A loop that ends normally has added the entries of some users. *)
Lemma doWhile_normal token team limit replies cursor gs t gs' :
  doWhile token team limit replies cursor gs = Some (t, Normal gs') ->
  exists users, gs' = gs ++ matches users.
Proof.
  intros E.
  destruct (forallb continues replies) eqn:Hall.
  - rewrite (doWhile_starved _ _ _ _ _ _ Hall) in E. discriminate.
  - destruct (split_at_stop replies Hall) as (pre & stop & rest & -> & Hpre & Hs).
    destruct (doWhile_split token team limit pre stop rest cursor gs Hpre Hs)
      as (t' & E' & _).
    rewrite E' in E. unfold stopCompletion in E.
    destruct (isPage stop).
    + injection E as _ <-. exists (flat_map usersOf pre ++ usersOf stop).
      now rewrite matches_app, app_assoc.
    + destruct stop; discriminate.
Qed.

(* --------------------------------------------------------------- *)
(** *** The claims *)

(** C1, amended.  With a token and a team set and a paginated user list
    whose pages hold N > 0 records that pass the four tests of the loop
    (not deleted, guest, address outside the excluded domain, no
    expiration), a run ends normally having sent exactly one request to
    [chat.postMessage]: a [post] with the bearer token, whose JSON body
    holds the channel and, as its text, the header line followed by the
    four lines (address, name, creation time, identifier) of each of those
    N records, in the order of the pages. *)
Theorem one_message_lists_all_matches (cfg : Config) (mock : Mock) :
  configured cfg = true ->
  Sent.paginated (admin_users_list mock) = true ->
  (0 < length (filter selected (flat_map usersOf (admin_users_list mock))))%nat ->
  exists t,
    notifySlackAboutGuestsWithoutExpiration cfg mock = Some (t, Normal tt)
    /\ posts t
       = [Sent.post (tokenOf cfg) (channel cfg)
            (Sent.message
               (filter selected (flat_map usersOf (admin_users_list mock))))]
    /\ length (map Sent.listing
                 (filter selected (flat_map usersOf (admin_users_list mock))))
       = length (filter selected (flat_map usersOf (admin_users_list mock)))
    /\ (forall u, selected u = true <-> Spec.passes_filter u).
Proof.
  intros Hc Hp Hn. rewrite <- paginated_sent in Hp.
  destruct (doWhile_paginated (tokenOf cfg) (teamId cfg) 100
              (admin_users_list mock) "" [] Hp) as (tl & E & R).
  simpl app in E.
  destruct (notify_loop_normal cfg mock tl _ Hc E) as (t' & En & _ & Hpost).
  eexists. split; [exact En|].
  split; [|split; [apply length_map | exact selected_spec]].
  rewrite posts_app, (posts_of_requests tl _ _ _ _ R), posts_log. simpl app.
  unfold posts. rewrite Hpost.
  - unfold matches. rewrite postOptions_post. reflexivity.
  - unfold matches. intros H. apply map_eq_nil in H.
    rewrite H in Hn. simpl in Hn. lia.
Qed.

(** C2.  A user is accumulated exactly when it passes the four tests:
    the callback ends normally on every user, with the user's entry
    appended to the array when the user is not deleted, is a guest, has
    no e-mail address in the excluded domain and has no expiration, and
    with the array as it was otherwise; over a whole page, and over all
    the pages of a paginated list, the entries added are those of the
    users that pass, and no other. *)
Theorem accumulated_iff_passes_filter (u : User.t) (gs : list Guest.t) :
  (exists t,
      (processUser u gs = Some (t, Normal (gs ++ [entryOf u]))
       /\ Spec.passes_filter u)
      \/ (processUser u gs = Some (t, Normal gs)
          /\ ~ Spec.passes_filter u))
  /\ (forall users : list User.t,
        exists t added,
          forEach processUser users gs = Some (t, Normal (gs ++ added))
          /\ forall g, In g added <->
                       exists v, In v users /\ Spec.passes_filter v /\ g = entryOf v)
  /\ (forall token team limit replies,
        paginated replies = true ->
        exists t all,
          doWhile token team limit replies "" [] = Some (t, Normal all)
          /\ forall g, In g all <->
                       exists v, In v (flat_map usersOf replies)
                                 /\ Spec.passes_filter v /\ g = entryOf v).
Proof.
  assert (Hin : forall users g,
             In g (matches users) <->
             exists v, In v users /\ Spec.passes_filter v /\ g = entryOf v).
  { intros users g. unfold matches. rewrite in_map_iff. split.
    - intros (v & <- & Hin). apply filter_In in Hin as [Hin Hs].
      exists v. split; [exact Hin|].
      split; [now apply selected_spec | reflexivity].
    - intros (v & Hin & Hp & ->). exists v. split; [reflexivity|].
      apply filter_In. split; [exact Hin|]. now apply selected_spec. }
  split; [|split].
  - destruct (processUser_cases u gs) as (t & [[E Hs]|[E Hs]]); exists t.
    + left. split; [exact E|]. now apply selected_spec.
    + right. split; [exact E|].
      intros Hp. apply selected_spec in Hp. congruence.
  - intros users. destruct (forEach_spec users gs) as (t & E & _).
    exists t, (matches users). split; [exact E | apply Hin].
  - intros token team limit replies Hp.
    destruct (doWhile_paginated token team limit replies "" [] Hp) as (t & E & _).
    exists t, (matches (flat_map usersOf replies)). split; [exact E | apply Hin].
Qed.

(** C3.  When the request after [pre] continuing pages is answered by a
    response that is not [ok], the run ends normally having sent exactly
    the requests for those pages and for the refused one: no request for
    a later page and no request to [chat.postMessage], whatever was
    accumulated before. *)
Theorem failed_page_aborts (cfg : Config) (mock : Mock)
        (pre rest : list (Outcome UsersList.t)) (bad : Outcome UsersList.t) :
  configured cfg = true ->
  admin_users_list mock = pre ++ bad :: rest ->
  forallb continues pre = true ->
  notOk bad = true ->
  exists t,
    notifySlackAboutGuestsWithoutExpiration cfg mock = Some (t, Normal tt)
    /\ requests t
       = map (listRequest (tokenOf cfg) (teamId cfg) 100) ("" :: map cursorOf pre)
    /\ length (pageRequests t) = S (length pre)
    /\ posts t = [].
Proof.
  intros Hc Hm Hpre Hbad.
  assert (Hp : isPage bad = false).
  { destruct bad as [e|content data]; simpl in *; [reflexivity|].
    apply negb_true_iff in Hbad. now rewrite Hbad. }
  assert (Hs : continues bad = false) by (unfold continues; now rewrite Hp).
  destruct (doWhile_split (tokenOf cfg) (teamId cfg) 100 pre bad rest "" []
              Hpre Hs) as (t & E & R).
  rewrite <- Hm in E. unfold stopCompletion in E. rewrite Hp in E.
  destruct bad as [e|content data]; [discriminate Hbad|].
  exists t. split; [now apply notify_loop_returned|].
  split; [exact R|]. split.
  - unfold pageRequests. rewrite R, filter_pages_listRequests.
    simpl. now rewrite !length_map.
  - now apply posts_of_requests in R.
Qed.

(** C4.  The test on [expiration_ts] holds exactly when the attribute is
    absent or is zero, and it decides the fate of a user that got past
    the three tests before it: the user's entry is appended to the array
    exactly when the attribute is absent or zero. *)
Theorem no_expiration_iff_absent_or_zero (u : User.t) :
  (noExpiration u = true <-> Spec.missing_expiration u)
  /\ (forall gs : list Guest.t,
        User.is_deleted u = false ->
        Spec.is_guest u ->
        ~ Spec.in_excluded_domain u ->
        exists t,
          (processUser u gs = Some (t, Normal (gs ++ [entryOf u]))
           /\ Spec.missing_expiration u)
          \/ (processUser u gs = Some (t, Normal gs)
              /\ ~ Spec.missing_expiration u)).
Proof.
  split; [apply noExpiration_spec|].
  intros gs Hd Hg Hx.
  destruct (processUser_cases u gs) as (t & [[E Hs]|[E Hs]]); exists t.
  - left. split; [exact E|]. apply selected_spec in Hs. apply Hs.
  - right. split; [exact E|]. intros Hm.
    assert (selected u = true) by (apply selected_spec; repeat split; assumption).
    congruence.
Qed.

(** C5.  The guest test passes exactly when [is_restricted] or
    [is_ultra_restricted] is set, and this is how a user that is not
    deleted is treated: the callback logs the line "Skipping user (not a
    guest)" for it, and leaves the array as it was, exactly when neither
    flag is set. *)
Theorem guest_iff_restricted_flag (u : User.t) (gs : list Guest.t) :
  User.is_deleted u = false ->
  (notGuest u = false <-> Spec.is_guest u)
  /\ exists t c,
      processUser u gs = Some (t, c)
      /\ (In (Log ("Skipping user (not a guest): " +++ Js.show (User.id u))) t
          <-> ~ Spec.is_guest u)
      /\ (~ Spec.is_guest u -> c = Normal gs).
Proof.
  intros Hd. split.
  { unfold notGuest, Spec.is_guest.
    destruct (User.is_restricted u), (User.is_ultra_restricted u); simpl;
      intuition congruence. }
  unfold processUser, notGuest, Spec.is_guest. rewrite Hd.
  destruct (User.is_restricted u) eqn:Hr, (User.is_ultra_restricted u) eqn:Hu;
    cbn [negb andb].
  4: { eexists _, _. split; [reflexivity|]. split.
       - split; [intros _ [H|H]; discriminate | intros _; simpl; auto].
       - reflexivity. }
  all: destruct (excludedEmail u); [| destruct (noExpiration u) ].
  all: try (destruct (creationTimeOf_spec u) as (tc & Ec & Rc);
            unfold creationTimeOf in *;
            destruct (User.date_created u) as [seconds|];
            [destruct (seconds =? 0)%Z;
             [|destruct (Js.toISOString (seconds * 1000))]|]).
  all: eexists _, _; (split; [reflexivity|]); split;
    [ split; [ simpl; intros H; exfalso;
               repeat (destruct H as [H|H]; [discriminate H|]); exact H
             | intros H; exfalso; apply H; auto ]
    | intros H; exfalso; apply H; auto ].
Qed.

(** C6.  On every list of replies in which some response has an empty or
    absent [next_cursor], the loop ends.  It went round on the leading
    replies that are pages whose [response_metadata.next_cursor] is not
    empty, stopped on the reply after them, [stop], and never asked for the
    rest: a [stop] that is a page has an empty or absent [next_cursor], one
    request was sent per reply it went round on and one for [stop], in
    order (each after the first with the [next_cursor] of the reply
    before), and when [stop] is a page the loop ends normally with the
    entries of all these pages appended to the array, page by page. *)
Theorem pagination_terminates (token team : string) (limit : Z)
        (replies : list (Outcome UsersList.t))
        (cursor : string) (gs : list Guest.t) :
  existsb Sent.lacks_cursor replies = true ->
  exists stop rest t,
    replies = Sent.rounds replies ++ stop :: rest
    /\ Forall (fun r => isPage r = true /\ Sent.next_cursor r <> "")
              (Sent.rounds replies)
    /\ (isPage stop = true -> Sent.next_cursor stop = "")
    /\ doWhile token team limit replies cursor gs
       = Some (t, stopCompletion
                    (gs ++ matches (flat_map usersOf (Sent.rounds replies))) stop)
    /\ requests t
       = map (listRequest token team limit)
             (cursor :: map Sent.next_cursor (Sent.rounds replies))
    /\ length (requests t) = length (Sent.rounds replies ++ [stop])
    /\ (isPage stop = true ->
        stopCompletion
          (gs ++ matches (flat_map usersOf (Sent.rounds replies))) stop
        = Normal (gs ++ concat (map (fun r => matches (usersOf r))
                                    (Sent.rounds replies ++ [stop])))).
Proof.
  intros H. apply lacks_cursor_stops in H.
  destruct (split_at_stop replies H) as (pre & stop & rest & -> & Hpre & Hs).
  destruct (doWhile_split token team limit pre stop rest cursor gs Hpre Hs)
    as (t & E & R).
  rewrite (rounds_split pre rest stop Hpre Hs).
  exists stop, rest, t.
  split; [reflexivity|]. split.
  { apply forallb_continues in Hpre. revert Hpre. apply Forall_impl.
    intros r. now rewrite cursorOf_next_cursor. }
  split.
  { intros Hp. rewrite continues_next_cursor, Hp in Hs. simpl in Hs.
    apply negb_false_iff in Hs. now apply String.eqb_eq. }
  split; [exact E|]. split.
  { rewrite R. f_equal. f_equal. apply map_ext. apply cursorOf_next_cursor. }
  split.
  { rewrite R, length_map, length_app. simpl. rewrite length_map. lia. }
  intros Hp. unfold stopCompletion. rewrite Hp.
  rewrite <- matches_flat_map, flat_map_app, matches_app. simpl.
  now rewrite app_nil_r, app_assoc.
Qed.

(** C7.  No error leaves the entry point: a run that ends, ends normally,
    with the trace of the [try] block, followed by the line "An error
    occurred: ..." when the block threw.  An error thrown by a request for
    a page is such an error.  [postToSlack] ends normally whatever the
    answer, with its own log line when the request threw, and so does
    the conversion of the creation date. *)
Theorem no_error_escapes (cfg : Config) (mock : Mock) :
  match notifySlackAboutGuestsWithoutExpiration cfg mock with
  | Some (t, c) =>
      c = Normal tt
      /\ match notifyBody cfg mock with
         | Some (tb, Thrown e) =>
             t = tb ++ [Log ("An error occurred: " +++ Js.message e)]
         | Some (tb, _) => t = tb
         | None => False
         end
  | None => notifyBody cfg mock = None
  end
  /\ (forall pre e rest,
        configured cfg = true ->
        admin_users_list mock = pre ++ Throws e :: rest ->
        forallb continues pre = true ->
        exists tb,
          notifyBody cfg mock = Some (tb, Thrown e)
          /\ notifySlackAboutGuestsWithoutExpiration cfg mock
             = Some (tb ++ [Log ("An error occurred: " +++ Js.message e)], Normal tt))
  /\ (forall channel message token reply,
        exists t,
          postToSlack channel message token reply = Some (t, Normal tt)
          /\ match reply with
             | Throws e =>
                 t = [Fetch (postOptions channel message token);
                      Log ("An error occurred while posting to Slack: " +++
                           Js.message e)]
             | Responds _ _ => True
             end)
  /\ (forall u,
        exists t,
          creationTimeOf u = Some (t, Normal (creationText u))
          /\ forall seconds e,
              User.date_created u = Some seconds ->
              seconds <> 0%Z ->
              Js.toISOString (seconds * 1000) = inl e ->
              t = [Log ("Error processing creation date for user " +++
                        Js.show (User.id u) +++ ": " +++ Js.message e)]).
Proof.
  split; [|split; [|split]].
  - unfold notifySlackAboutGuestsWithoutExpiration.
    destruct (notifyBody cfg mock) as [[tb [[]| |e]]|]; simpl; auto.
  - intros pre e rest Hc Hm Hpre.
    destruct (doWhile_split (tokenOf cfg) (teamId cfg) 100 pre (Throws e) rest
                "" [] Hpre eq_refl) as (t & E & R).
    rewrite <- Hm in E. unfold stopCompletion in E. simpl in E.
    exists t. split.
    + rewrite (notifyBody_configured cfg mock Hc), E. reflexivity.
    + now apply notify_loop_thrown.
  - intros channel message token reply. unfold postToSlack.
    destruct reply as [e|content result]; simpl.
    + computes_to.
    + destruct (PostMessage.ok result); simpl; eexists; split; auto.
  - intros u. unfold creationTimeOf, creationText.
    destruct (User.date_created u) as [seconds|].
    + destruct (Z.eqb_spec seconds 0) as [Hz|Hz].
      * eexists. split; [reflexivity|]. intros s e E. injection E as <-. congruence.
      * destruct (Js.toISOString (seconds * 1000)) as [e|text] eqn:Ei.
        -- eexists. split; [reflexivity|]. intros s e' E _ E'.
           injection E as <-. rewrite Ei in E'. injection E' as <-. reflexivity.
        -- eexists. split; [reflexivity|]. intros s e' E _ E'.
           injection E as <-. rewrite Ei in E'. discriminate.
    + eexists. split; [reflexivity|]. discriminate.
Qed.

(** C8.  When the loop ends normally with an empty array, the run ends
    after two log lines, the count and "No active guests without
    expiration found.", and has sent no request to [chat.postMessage]. *)
Theorem no_match_no_message (cfg : Config) (mock : Mock) (t : Trace) :
  configured cfg = true ->
  doWhile (tokenOf cfg) (teamId cfg) 100 (admin_users_list mock) "" []
  = Some (t, Normal []) ->
  notifySlackAboutGuestsWithoutExpiration cfg mock
  = Some (t ++ [Log "Guests without expiration found: 0";
                Log "No active guests without expiration found."],
          Normal tt)
  /\ posts (t ++ [Log "Guests without expiration found: 0";
                  Log "No active guests without expiration found."]) = [].
Proof.
  intros Hc E.
  destruct (notify_loop_normal cfg mock t [] Hc E) as (t' & En & Hnil & _).
  rewrite (Hnil eq_refl) in En. split; [exact En|].
  destruct (doWhile_requests _ _ _ _ _ _ _ _ E) as (cs & R).
  rewrite posts_app, (posts_of_requests t _ _ _ _ R). reflexivity.
Qed.

(** C9.  On a paginated user list the array the loop ends with is the
    concatenation, page after page, of each page's entries in the order
    of the page's users; when it is not empty, the one message posted
    is the header line followed by the four lines of each of those users
    in that order, a blank line between two users; and exchanging two
    neighbouring reported users of a page exchanges their listings in the
    posted message and moves no other: what is listed before them and
    after them stays. *)
Theorem entries_follow_page_order (cfg : Config) (mock : Mock) :
  configured cfg = true ->
  Sent.paginated (admin_users_list mock) = true ->
  exists tl gs,
    doWhile (tokenOf cfg) (teamId cfg) 100 (admin_users_list mock) "" []
    = Some (tl, Normal gs)
    /\ gs = concat (map (fun reply => map entryOf (filter selected (usersOf reply)))
                        (admin_users_list mock))
    /\ (gs <> [] ->
        exists t,
          notifySlackAboutGuestsWithoutExpiration cfg mock = Some (t, Normal tt)
          /\ posts t
             = [Sent.post (tokenOf cfg) (channel cfg)
                  ("Active guests without expiration:" +++ Js.LF +++
                   Js.join (Js.LF +++ Js.LF)
                     (concat (map (fun reply =>
                                     map Sent.listing
                                         (filter selected (usersOf reply)))
                                  (admin_users_list mock))))])
    /\ (forall before after content data front back u v,
          admin_users_list mock
          = before ++ Responds content
                        (Sent.with_users data (front ++ u :: v :: back)) :: after ->
          selected u = true ->
          selected v = true ->
          exists t t',
            notifySlackAboutGuestsWithoutExpiration cfg mock = Some (t, Normal tt)
            /\ posts t
               = [Sent.post (tokenOf cfg) (channel cfg)
                    (Sent.text
                       (map Sent.listing
                            (filter selected (flat_map usersOf before ++ front))
                        ++ Sent.listing u :: Sent.listing v
                        :: map Sent.listing
                               (filter selected (back ++ flat_map usersOf after))))]
            /\ notifySlackAboutGuestsWithoutExpiration cfg
                 (mkMock (before ++ Responds content
                                      (Sent.with_users data (front ++ v :: u :: back))
                                 :: after)
                         (chat_postMessage mock))
               = Some (t', Normal tt)
            /\ posts t'
               = [Sent.post (tokenOf cfg) (channel cfg)
                    (Sent.text
                       (map Sent.listing
                            (filter selected (flat_map usersOf before ++ front))
                        ++ Sent.listing v :: Sent.listing u
                        :: map Sent.listing
                               (filter selected (back ++ flat_map usersOf after))))]).
Proof.
  intros Hc Hp. rewrite <- paginated_sent in Hp.
  assert (Hrun : forall m,
             paginated (admin_users_list m) = true ->
             filter selected (flat_map usersOf (admin_users_list m)) <> [] ->
             exists t,
               notifySlackAboutGuestsWithoutExpiration cfg m = Some (t, Normal tt)
               /\ posts t
                  = [Sent.post (tokenOf cfg) (channel cfg)
                       (Sent.message
                          (filter selected (flat_map usersOf (admin_users_list m))))]).
  { intros m Hm Hne.
    destruct (doWhile_paginated (tokenOf cfg) (teamId cfg) 100
                (admin_users_list m) "" [] Hm) as (tl & E & R).
    simpl app in E.
    destruct (notify_loop_normal cfg m tl _ Hc E) as (t' & En & _ & Hpost).
    eexists. split; [exact En|].
    rewrite posts_app, (posts_of_requests tl _ _ _ _ R), posts_log. simpl app.
    unfold posts. rewrite Hpost.
    - unfold matches. rewrite postOptions_post. reflexivity.
    - unfold matches. intros H. apply map_eq_nil in H. contradiction. }
  assert (Hflat : forall replies,
             map Sent.listing (filter selected (flat_map usersOf replies))
             = concat (map (fun reply =>
                              map Sent.listing (filter selected (usersOf reply)))
                           replies)).
  { induction replies as [|r replies IH]; simpl; [reflexivity|].
    now rewrite filter_app, map_app, IH. }
  destruct (doWhile_paginated (tokenOf cfg) (teamId cfg) 100
              (admin_users_list mock) "" [] Hp) as (tl & E & R).
  simpl app in E. rewrite matches_flat_map in E.
  eexists tl, _. split; [exact E|]. split; [reflexivity|]. split.
  - intros Hne.
    destruct (Hrun mock Hp) as (t & Et & Pt).
    { intros H. apply Hne. rewrite <- matches_flat_map. unfold matches.
      now rewrite H. }
    exists t. split; [exact Et|]. rewrite Pt.
    unfold Sent.message, Sent.text. now rewrite Hflat.
  - intros before after content data front back u v Hm Hu Hv.
    set (swapped := mkMock (before ++ Responds content
                                        (Sent.with_users data (front ++ v :: u :: back))
                                   :: after)
                           (chat_postMessage mock)).
    assert (Hp' : paginated (admin_users_list swapped) = true).
    { rewrite <- Hp, Hm. apply paginated_alike. simpl.
      rewrite !map_app. reflexivity. }
    assert (Hf : forall a b,
               filter selected
                 (flat_map usersOf
                    (before ++ Responds content
                                 (Sent.with_users data (front ++ a :: b :: back))
                            :: after))
               = filter selected (flat_map usersOf before ++ front)
                 ++ (if selected a then [a] else [])
                 ++ (if selected b then [b] else [])
                 ++ filter selected (back ++ flat_map usersOf after)).
    { intros a b. rewrite flat_map_app. simpl.
      change (a :: b :: back) with ([a] ++ [b] ++ back).
      rewrite !filter_app. simpl.
      destruct (selected a), (selected b); simpl; rewrite <- ?app_assoc;
        reflexivity. }
    destruct (Hrun mock Hp) as (t & Et & Pt).
    { rewrite Hm, Hf, Hu. destruct (filter selected (flat_map usersOf before ++ front));
        discriminate. }
    destruct (Hrun swapped Hp') as (t' & Et' & Pt').
    { simpl admin_users_list. rewrite Hf, Hv.
      destruct (filter selected (flat_map usersOf before ++ front)); discriminate. }
    exists t, t'.
    split; [exact Et|]. split.
    { rewrite Pt, Hm, Hf, Hu, Hv. unfold Sent.message.
      now rewrite !map_app. }
    split; [exact Et'|].
    rewrite Pt'. simpl admin_users_list. rewrite Hf, Hu, Hv. unfold Sent.message.
    now rewrite !map_app.
Qed.

(** C10.  The payload of the first request has no [cursor] member; the
    payload of every later request has one, the [next_cursor] of the
    response before, which was not empty (a payload has the member
    exactly when the cursor it was built from is not empty); and
    [encodeQueryData] writes the members whose value is not [undefined]
    and no other. *)
Theorem cursor_member_follows_previous_reply (token team : string) (limit : Z)
        (pre rest : list (Outcome UsersList.t)) (stop : Outcome UsersList.t)
        (gs : list Guest.t) :
  forallb continues pre = true ->
  continues stop = false ->
  exists t c,
    doWhile token team limit (pre ++ stop :: rest) "" gs = Some (t, c)
    /\ map payload (requests t)
       = map (fun cursor => encodeQueryData (listPayload token team limit cursor))
             ("" :: map cursorOf pre)
    /\ ~ In "cursor" (keys (listPayload token team limit ""))
    /\ Forall (fun r => cursorOf r <> ""
                        /\ In ("cursor", Js.Str (cursorOf r))
                              (listPayload token team limit (cursorOf r))) pre
    /\ (forall cursor,
          In "cursor" (keys (listPayload token team limit cursor)) <-> cursor <> "")
    /\ (forall data,
          encodeQueryData data
          = Js.join "&"
              (map encodeMember
                   (filter (fun member => Js.is_defined (snd member)) data)))
    /\ (forall front back d,
          encodeQueryData (front ++ (d, Js.Undefined) :: back)
          = encodeQueryData (front ++ back)).
Proof.
  intros Hpre Hs.
  destruct (doWhile_split token team limit pre stop rest "" gs Hpre Hs)
    as (t & E & R).
  eexists t, _. split; [exact E|]. split.
  { rewrite R, map_map. reflexivity. }
  split.
  { intros H. now apply listPayload_cursor in H. }
  split.
  { apply forallb_continues in Hpre. revert Hpre. apply Forall_impl.
    intros r [_ Hr]. split; [exact Hr|].
    unfold listPayload. apply truthy_nonempty in Hr. rewrite Hr.
    apply in_or_app. right. now left. }
  split; [apply listPayload_cursor|]. split; [apply encodeQueryData_spec|].
  intros front back d. rewrite !encodeQueryData_spec, !filter_app. reflexivity.
Qed.

(** With the team identifier of the file as it is checked in, the empty
    string, a run logs one line and stops: it sends no request, whatever
    the token and whatever the endpoints would answer. *)
Theorem checked_in_configuration_stops (token : option string) (mock : Mock) :
  exists msg,
    notifySlackAboutGuestsWithoutExpiration (as_checked_in token) mock
    = Some ([Log msg], Normal tt)
    /\ (msg = "Team ID is missing."
        \/ msg = "SLACK_USER_TOKEN is missing in script properties.").
Proof.
  unfold notifySlackAboutGuestsWithoutExpiration, notifyBody, as_checked_in.
  destruct token as [token|]; simpl.
  - destruct (Js.truthy token); simpl; eexists; split; eauto.
  - eexists. split; eauto.
Qed.

(** When the request after [pre] continuing pages is answered by an [ok]
    response without a [users] array, the run ends normally having sent
    exactly the requests up to that one, and none to [chat.postMessage]. *)
Theorem missing_users_aborts (cfg : Config) (mock : Mock)
        (pre rest : list (Outcome UsersList.t))
        (content : string) (data : UsersList.t) :
  configured cfg = true ->
  admin_users_list mock = pre ++ Responds content data :: rest ->
  forallb continues pre = true ->
  UsersList.users data = None ->
  exists t,
    notifySlackAboutGuestsWithoutExpiration cfg mock = Some (t, Normal tt)
    /\ requests t
       = map (listRequest (tokenOf cfg) (teamId cfg) 100) ("" :: map cursorOf pre)
    /\ posts t = [].
Proof.
  intros Hc Hm Hpre Hu.
  assert (Hp : isPage (Responds content data) = false).
  { simpl. rewrite Hu. apply andb_false_r. }
  assert (Hs : continues (Responds content data) = false)
    by (unfold continues; now rewrite Hp).
  destruct (doWhile_split (tokenOf cfg) (teamId cfg) 100 pre _ rest "" []
              Hpre Hs) as (t & E & R).
  rewrite <- Hm in E. unfold stopCompletion in E. rewrite Hp in E.
  exists t. split; [now apply notify_loop_returned|].
  split; [exact R|]. now apply posts_of_requests in R.
Qed.

(** Without a token or without a team identifier a run logs one line and
    stops: it sends no request. *)
Theorem unconfigured_sends_nothing (cfg : Config) (mock : Mock) :
  configured cfg = false ->
  exists msg,
    notifySlackAboutGuestsWithoutExpiration cfg mock = Some ([Log msg], Normal tt).
Proof.
  unfold configured, notifySlackAboutGuestsWithoutExpiration, notifyBody.
  destruct (SLACK_USER_TOKEN cfg) as [token|]; simpl.
  - destruct (Js.truthy token); simpl.
    + intros ->. simpl. eexists. reflexivity.
    + intros _. eexists. reflexivity.
  - intros _. eexists. reflexivity.
Qed.

(** [postToSlack] sends its request once and ends normally, whatever the
    answer, and writes what happened to the log: the one line "Message
    posted successfully ..." for a response that says [ok], the error code
    and the raw response for one that does not, and the message of the
    error for a request that throws. *)
Theorem post_is_sent_once (channel message token : string)
        (reply : Outcome PostMessage.t) :
  exists t,
    postToSlack channel message token reply = Some (t, Normal tt)
    /\ requests t = [postOptions channel message token]
    /\ logged t
       = match reply with
         | Throws e =>
             ["An error occurred while posting to Slack: " +++ Js.message e]
         | Responds content result =>
             if PostMessage.ok result
             then ["Message posted successfully to Slack channel " +++ channel]
             else ["Error posting to Slack: " +++ Js.show (PostMessage.error result);
                   "Full response: " +++ content]
         end.
Proof.
  unfold postToSlack. destruct reply as [e|content result]; simpl.
  - eexists. repeat split.
  - destruct (PostMessage.ok result); simpl; eexists; repeat split.
Qed.

End Properties.

(* ================================================================= *)
(** ** The theorems at the examples *)

(** C1, as stated, fails.  Each of the first two user lists is paginated
    and holds one guest record without an expiration timestamp (N = 1); on
    the first the guest is deactivated, on the second its address is in the
    excluded domain, and the run posts nothing.  On the third, the two-page
    list with three matches, the run posts nothing either when the team
    identifier is the empty one of the file as it is checked in. *)
Lemma one_message_counterexample :
  (configured Demo.cfg = true
   /\ paginated (admin_users_list Demo.deleted_only) = true
   /\ length (filter Spec.guest_lacking_expiration
                (flat_map usersOf (admin_users_list Demo.deleted_only))) = 1
   /\ exists t,
       @notifySlackAboutGuestsWithoutExpiration Sample.user Sample.data
         Demo.cfg Demo.deleted_only = Some (t, Normal tt)
       /\ posts t = [])
  /\ (paginated (admin_users_list Demo.excluded_only) = true
      /\ length (filter Spec.guest_lacking_expiration
                   (flat_map usersOf (admin_users_list Demo.excluded_only))) = 1
      /\ exists t,
          @notifySlackAboutGuestsWithoutExpiration Sample.user Sample.data
            Demo.cfg Demo.excluded_only = Some (t, Normal tt)
          /\ posts t = [])
  /\ (paginated (admin_users_list Demo.two_pages) = true
      /\ length (filter Spec.guest_lacking_expiration
                   (flat_map usersOf (admin_users_list Demo.two_pages))) = 5
      /\ @notifySlackAboutGuestsWithoutExpiration Sample.user Sample.data
           (as_checked_in (Some "xoxp-test")) Demo.two_pages
         = Some ([Log "Team ID is missing."], Normal tt)).
Proof.
  split; [|split].
  - repeat split. computes_to.
  - repeat split. computes_to.
  - repeat split.
Qed.

Lemma one_message_witness :
  configured Demo.cfg = true
  /\ Sent.paginated (admin_users_list Demo.two_pages) = true
  /\ (0 < length (filter selected
                    (flat_map usersOf (admin_users_list Demo.two_pages))))%nat
  /\ exists t,
      @notifySlackAboutGuestsWithoutExpiration Sample.user Sample.data
        Demo.cfg Demo.two_pages = Some (t, Normal tt)
      /\ posts t
         = [ {| url := "https://slack.com/api/chat.postMessage";
                method := "post";
                headers := [("Authorization", "Bearer xoxp-test");
                            ("Content-Type", "application/json")];
                payload :=
                  Js.stringify_object
                    [("channel", Js.Str "C0001");
                     ("text", Js.Str "Active guests without expiration:
*Email*: ann@partner.org
*Name*: Ann
*Creation Time*: 2024-07-29T00:00:00.000Z
*User ID*: U1

*Email*: undefined
*Name*: undefined
*Creation Time*: Unknown
*User ID*: U3

*Email*: gus@partner.org
*Name*: Gus
*Creation Time*: Unknown
*User ID*: U7")] |} ]
      /\ length (map Sent.listing
                   (filter selected
                      (flat_map usersOf (admin_users_list Demo.two_pages)))) = 3
      /\ (forall u, selected u = true <-> Spec.passes_filter u).
Proof.
  assert (Hn : (0 < length (filter selected
                    (flat_map usersOf (admin_users_list Demo.two_pages))))%nat)
    by (simpl; lia).
  split; [reflexivity|]. split; [reflexivity|]. split; [exact Hn|].
  exact (@one_message_lists_all_matches Sample.user Sample.data
           Demo.cfg Demo.two_pages eq_refl eq_refl Hn).
Defined.

Lemma failed_page_aborts_witness :
  configured Demo.cfg = true
  /\ admin_users_list Demo.refused
     = [Demo.page1] ++ Demo.invalid_auth :: [Demo.page2]
  /\ forallb continues [Demo.page1] = true
  /\ notOk Demo.invalid_auth = true
  /\ exists t,
      @notifySlackAboutGuestsWithoutExpiration Sample.user Sample.data
        Demo.cfg Demo.refused = Some (t, Normal tt)
      /\ requests t
         = map (listRequest "xoxp-test" "T0001" 100) [""; "dXNlcjpVNQ=="]
      /\ length (pageRequests t) = 2
      /\ posts t = [].
Proof.
  repeat (split; [reflexivity|]).
  exact (@failed_page_aborts Sample.user Sample.data Demo.cfg Demo.refused
           [Demo.page1] [Demo.page2] Demo.invalid_auth
           eq_refl eq_refl eq_refl eq_refl).
Defined.

Lemma no_expiration_witness :
  User.is_deleted Demo.cy = false
  /\ Spec.is_guest Demo.cy
  /\ ~ Spec.in_excluded_domain Demo.cy
  /\ exists t,
      (@processUser Sample.user Demo.cy [] = Some (t, Normal ([] ++ [entryOf Demo.cy]))
       /\ Spec.missing_expiration Demo.cy)
      \/ (@processUser Sample.user Demo.cy [] = Some (t, Normal [])
          /\ ~ Spec.missing_expiration Demo.cy).
Proof.
  assert (Hg : Spec.is_guest Demo.cy) by (right; reflexivity).
  assert (Hx : ~ Spec.in_excluded_domain Demo.cy)
    by (intros [name H]; discriminate H).
  split; [reflexivity|]. split; [exact Hg|]. split; [exact Hx|].
  exact (proj2 (@no_expiration_iff_absent_or_zero Sample.user Demo.cy)
               [] eq_refl Hg Hx).
Defined.

Lemma guest_witness :
  User.is_deleted Demo.eve = false
  /\ (notGuest Demo.eve = false <-> Spec.is_guest Demo.eve)
  /\ exists t c,
      @processUser Sample.user Demo.eve [] = Some (t, c)
      /\ (In (Log ("Skipping user (not a guest): " +++ Js.show (User.id Demo.eve))) t
          <-> ~ Spec.is_guest Demo.eve)
      /\ (~ Spec.is_guest Demo.eve -> c = Normal []).
Proof.
  split; [reflexivity|].
  exact (@guest_iff_restricted_flag Sample.user Demo.eve [] eq_refl).
Defined.

Lemma pagination_witness :
  existsb Sent.lacks_cursor (admin_users_list Demo.two_pages) = true
  /\ Sent.rounds (admin_users_list Demo.two_pages) = [Demo.page1]
  /\ exists t,
      @doWhile Sample.user Sample.data "xoxp-test" "T0001" 100
        [Demo.page1; Demo.page2] "" []
      = Some (t, Normal [entryOf Demo.ann; entryOf Demo.cy; entryOf Demo.gus])
      /\ requests t
         = map (listRequest "xoxp-test" "T0001" 100) [""; "dXNlcjpVNQ=="]
      /\ length (requests t) = 2.
Proof.
  split; [reflexivity|]. split; [reflexivity|].
  destruct (@pagination_terminates Sample.user Sample.data "xoxp-test" "T0001" 100
              (admin_users_list Demo.two_pages) "" [] eq_refl)
    as (stop & rest & t & Hsplit & _ & _ & E & R & L & _).
  change ([Demo.page1; Demo.page2] = Demo.page1 :: stop :: rest) in Hsplit.
  injection Hsplit as <- <-.
  exists t. split; [exact E|]. split; [exact R | exact L].
Defined.

Lemma no_error_escapes_witness :
  configured Demo.cfg = true
  /\ admin_users_list Demo.broken
     = [Demo.page1] ++ Throws (Js.mkError "Address unavailable") :: []
  /\ forallb continues [Demo.page1] = true
  /\ exists tb,
      @notifyBody Sample.user Sample.data Demo.cfg Demo.broken
      = Some (tb, Thrown (Js.mkError "Address unavailable"))
      /\ @notifySlackAboutGuestsWithoutExpiration Sample.user Sample.data
           Demo.cfg Demo.broken
         = Some (tb ++ [Log "An error occurred: Address unavailable"], Normal tt).
Proof.
  repeat (split; [reflexivity|]).
  exact (proj1 (proj2 (@no_error_escapes Sample.user Sample.data
                         Demo.cfg Demo.broken))
               [Demo.page1] (Js.mkError "Address unavailable") []
               eq_refl eq_refl eq_refl).
Defined.

Lemma no_match_witness :
  configured Demo.cfg = true
  /\ exists t,
      @doWhile Sample.user Sample.data "xoxp-test" "T0001" 100
        (admin_users_list Demo.no_match) "" [] = Some (t, Normal [])
      /\ @notifySlackAboutGuestsWithoutExpiration Sample.user Sample.data
           Demo.cfg Demo.no_match
         = Some (t ++ [Log "Guests without expiration found: 0";
                       Log "No active guests without expiration found."],
                 Normal tt)
      /\ posts (t ++ [Log "Guests without expiration found: 0";
                      Log "No active guests without expiration found."]) = [].
Proof.
  split; [reflexivity|].
  eexists. split; [reflexivity|].
  exact (@no_match_no_message Sample.user Sample.data Demo.cfg Demo.no_match
           _ eq_refl eq_refl).
Defined.

Lemma page_order_witness :
  configured Demo.cfg = true
  /\ Sent.paginated (admin_users_list Demo3.pair) = true
  /\ selected Demo.ann = true
  /\ selected Demo.cy = true
  /\ exists t t',
      @notifySlackAboutGuestsWithoutExpiration Sample.user Sample.data
        Demo.cfg Demo3.pair = Some (t, Normal tt)
      /\ posts t
         = [Sent.post "xoxp-test" "C0001" "Active guests without expiration:
*Email*: ann@partner.org
*Name*: Ann
*Creation Time*: 2024-07-29T00:00:00.000Z
*User ID*: U1

*Email*: undefined
*Name*: undefined
*Creation Time*: Unknown
*User ID*: U3

*Email*: gus@partner.org
*Name*: Gus
*Creation Time*: Unknown
*User ID*: U7"]
      /\ @notifySlackAboutGuestsWithoutExpiration Sample.user Sample.data
           Demo.cfg Demo3.swapped = Some (t', Normal tt)
      /\ posts t'
         = [Sent.post "xoxp-test" "C0001" "Active guests without expiration:
*Email*: undefined
*Name*: undefined
*Creation Time*: Unknown
*User ID*: U3

*Email*: ann@partner.org
*Name*: Ann
*Creation Time*: 2024-07-29T00:00:00.000Z
*User ID*: U1

*Email*: gus@partner.org
*Name*: Gus
*Creation Time*: Unknown
*User ID*: U7"].
Proof.
  repeat (split; [reflexivity|]).
  destruct (@entries_follow_page_order Sample.user Sample.data
              Demo.cfg Demo3.pair eq_refl eq_refl)
    as (tl & gs & _ & _ & _ & Hswap).
  exact (Hswap [] [Demo.page2] "page 1" Demo3.body [] [] Demo.ann Demo.cy
               eq_refl eq_refl eq_refl).
Defined.

Lemma cursor_member_witness :
  forallb continues [Demo.page1] = true
  /\ continues Demo.page2 = false
  /\ exists t c,
      @doWhile Sample.user Sample.data "xoxp-test" "T0001" 100
        ([Demo.page1] ++ Demo.page2 :: []) "" [] = Some (t, c)
      /\ map payload (requests t)
         = ["token=xoxp-test&team_id=T0001&limit=100";
            "token=xoxp-test&team_id=T0001&limit=100&cursor=dXNlcjpVNQ%3D%3D"].
Proof.
  repeat (split; [reflexivity|]).
  destruct (@cursor_member_follows_previous_reply Sample.user Sample.data
              "xoxp-test" "T0001" 100 [Demo.page1] [] Demo.page2 []
              eq_refl eq_refl) as (t & c & E & P & _).
  exists t, c. split; [exact E | exact P].
Defined.

Lemma missing_users_witness :
  configured Demo.cfg = true
  /\ exists t,
      @notifySlackAboutGuestsWithoutExpiration Sample.user Sample.data Demo.cfg
        (mkMock [Demo.page1;
                 Responds "no users" (UsersList.mk true None None None);
                 Demo.page2] Demo.posted)
      = Some (t, Normal tt)
      /\ requests t
         = map (listRequest "xoxp-test" "T0001" 100) [""; "dXNlcjpVNQ=="]
      /\ posts t = [].
Proof.
  split; [reflexivity|].
  exact (@missing_users_aborts Sample.user Sample.data Demo.cfg
           (mkMock [Demo.page1;
                    Responds "no users" (UsersList.mk true None None None);
                    Demo.page2] Demo.posted)
           [Demo.page1] [Demo.page2] "no users"
           (UsersList.mk true None None None)
           eq_refl eq_refl eq_refl eq_refl).
Defined.

Lemma unconfigured_witness :
  configured (as_checked_in (Some "xoxp-test")) = false
  /\ exists msg,
      @notifySlackAboutGuestsWithoutExpiration Sample.user Sample.data
        (as_checked_in (Some "xoxp-test")) Demo.two_pages
      = Some ([Log msg], Normal tt).
Proof.
  split; [reflexivity|].
  exact (@unconfigured_sends_nothing Sample.user Sample.data
           (as_checked_in (Some "xoxp-test")) Demo.two_pages eq_refl).
Defined.

Lemma accumulated_witness :
  paginated (admin_users_list Demo.two_pages) = true
  /\ exists t all,
      @doWhile Sample.user Sample.data "xoxp-test" "T0001" 100
        (admin_users_list Demo.two_pages) "" [] = Some (t, Normal all)
      /\ forall g, In g all <->
                   exists v, In v (flat_map usersOf (admin_users_list Demo.two_pages))
                             /\ Spec.passes_filter v /\ g = entryOf v.
Proof.
  split; [reflexivity|].
  exact (proj2 (proj2 (@accumulated_iff_passes_filter Sample.user Sample.data
                         Demo.ann []))
               "xoxp-test" "T0001" 100%Z (admin_users_list Demo.two_pages) eq_refl).
Defined.

(* ================================================================= *)
(** ** The script run on the examples *)

Example encodeQueryData_skips_undefined :
  encodeQueryData [("token", Js.Str "xoxp test"); ("cursor", Js.Undefined);
                   ("limit", Js.Num 100); ("team_id", Js.Str "T&1")]
  = "token=xoxp%20test&limit=100&team_id=T%261".
Proof. reflexivity. Qed.

Example first_and_next_payload :
  payload (listRequest "xoxp-test" "T0001" 100 "")
  = "token=xoxp-test&team_id=T0001&limit=100"
  /\ payload (listRequest "xoxp-test" "T0001" 100 "dXNlcjpVNQ==")
     = "token=xoxp-test&team_id=T0001&limit=100&cursor=dXNlcjpVNQ%3D%3D".
Proof. split; reflexivity. Qed.

Example creation_times :
  creationText Demo.ann = "2024-07-29T00:00:00.000Z"
  /\ creationText Demo.cy = "Unknown"
  /\ creationText Demo.gus = "Unknown"
  /\ Js.toISOString (-1) = inr "1969-12-31T23:59:59.999Z"
  /\ Js.toISOString 8640000000000001 = inl (Js.mkError "Invalid time value").
Proof. repeat split. Qed.

Example matches_of_the_two_pages :
  matches (flat_map usersOf (admin_users_list Demo.two_pages))
  = [entryOf Demo.ann; entryOf Demo.cy; entryOf Demo.gus].
Proof. reflexivity. Qed.

Example message_of_the_two_pages :
  formatMessage [entryOf Demo.ann; entryOf Demo.cy]
  = "Active guests without expiration:
*Email*: ann@partner.org
*Name*: Ann
*Creation Time*: 2024-07-29T00:00:00.000Z
*User ID*: U1

*Email*: undefined
*Name*: undefined
*Creation Time*: Unknown
*User ID*: U3".
Proof. reflexivity. Qed.

Example run_on_refused :
  option_map (fun r => (map payload (requests (fst r)), snd r))
    (@notifySlackAboutGuestsWithoutExpiration Sample.user Sample.data
       Demo.cfg Demo.refused)
  = Some (["token=xoxp-test&team_id=T0001&limit=100";
           "token=xoxp-test&team_id=T0001&limit=100&cursor=dXNlcjpVNQ%3D%3D"],
          Normal tt).
Proof. reflexivity. Qed.

Example run_starved :
  @notifySlackAboutGuestsWithoutExpiration Sample.user Sample.data
    Demo.cfg (mkMock [Demo.page1] Demo.posted)
  = None.
Proof. reflexivity. Qed.

(* ================================================================= *)
(** ** The form body *)

Lemma occurs_append (c : ascii) (a b : string) :
  Form.occurs c (a +++ b) = Form.occurs c a || Form.occurs c b.
Proof.
  induction a as [|x a IH]; simpl; [reflexivity|].
  now rewrite IH, orb_assoc.
Qed.

Lemma every_append (p : ascii -> bool) (a b : string) :
  Form.every p (a +++ b) = Form.every p a && Form.every p b.
Proof.
  induction a as [|x a IH]; simpl; [reflexivity|].
  now rewrite IH, andb_assoc.
Qed.

Lemma encodeURIComponent_cons (c : ascii) (s : string) :
  Js.encodeURIComponent (String c s) = encodeChar c (Js.encodeURIComponent s).
Proof. reflexivity. Qed.

Lemma decode_encodeChar (c : ascii) (rest : string) :
  Form.percentDecode (encodeChar c rest) = String c (Form.percentDecode rest).
Proof. each_ascii c; reflexivity. Qed.

Lemma occurs_encodeChar (sep c : ascii) (rest : string) :
  sep = "&"%char \/ sep = "="%char ->
  Form.occurs sep (encodeChar c rest) = Form.occurs sep rest.
Proof. intros [-> | ->]; each_ascii c; reflexivity. Qed.

Lemma every_encodeChar (c : ascii) (rest : string) :
  Form.every Form.formChar (encodeChar c rest) = Form.every Form.formChar rest.
Proof. each_ascii c; reflexivity. Qed.

Lemma decode_encode (s : string) :
  Form.percentDecode (Js.encodeURIComponent s) = s.
Proof.
  induction s as [|c s IH]; [reflexivity|].
  now rewrite encodeURIComponent_cons, decode_encodeChar, IH.
Qed.

Lemma encode_no_separator (sep : ascii) (s : string) :
  sep = "&"%char \/ sep = "="%char ->
  Form.occurs sep (Js.encodeURIComponent s) = false.
Proof.
  intros H. induction s as [|c s IH]; [reflexivity|].
  now rewrite encodeURIComponent_cons, occurs_encodeChar.
Qed.

Lemma encode_formChars (s : string) :
  Form.every Form.formChar (Js.encodeURIComponent s) = true.
Proof.
  induction s as [|c s IH]; [reflexivity|].
  now rewrite encodeURIComponent_cons, every_encodeChar.
Qed.

Lemma cut_append (sep : ascii) (a b : string) :
  Form.occurs sep a = false ->
  Form.cut sep (a +++ String sep b) = (a, b).
Proof.
  induction a as [|c a IH]; simpl.
  - now rewrite Ascii.eqb_refl.
  - intros H. apply orb_false_iff in H as [Hc Ha].
    now rewrite Hc, (IH Ha).
Qed.

Lemma splitOn_nonempty (sep : ascii) (s : string) : Form.splitOn sep s <> [].
Proof.
  destruct s as [|c s]; simpl; [discriminate|].
  destruct (Ascii.eqb c sep); [discriminate|].
  destruct (Form.splitOn sep s); discriminate.
Qed.

Lemma splitOn_clean (sep : ascii) (a : string) :
  Form.occurs sep a = false -> Form.splitOn sep a = [a].
Proof.
  induction a as [|c a IH]; simpl; [reflexivity|].
  intros H. apply orb_false_iff in H as [Hc Ha].
  now rewrite Hc, (IH Ha).
Qed.

Lemma splitOn_append (sep : ascii) (a b : string) :
  Form.occurs sep a = false ->
  Form.splitOn sep (a +++ String sep b) = a :: Form.splitOn sep b.
Proof.
  induction a as [|c a IH]; simpl.
  - now rewrite Ascii.eqb_refl.
  - intros H. apply orb_false_iff in H as [Hc Ha].
    now rewrite Hc, (IH Ha).
Qed.

Lemma splitOn_join (sep : ascii) (parts : list string) :
  parts <> [] ->
  Forall (fun part => Form.occurs sep part = false) parts ->
  Form.splitOn sep (Js.join (String sep EmptyString) parts) = parts.
Proof.
  unfold Js.join. induction parts as [|part parts IH]; [congruence|].
  intros _ H. inversion H as [|? ? Hpart Hparts]; subst.
  destruct parts as [|next parts].
  - simpl. now apply splitOn_clean.
  - change (String.concat (String sep "") (part :: next :: parts))
      with (part +++ String sep (String.concat (String sep "") (next :: parts))).
    rewrite (splitOn_append _ _ _ Hpart). f_equal.
    apply IH; [discriminate | exact Hparts].
Qed.

Lemma encodeMember_clean (member : string * Js.value) :
  Form.occurs "&" (encodeMember member) = false.
Proof.
  unfold encodeMember. rewrite occurs_append. simpl.
  rewrite !encode_no_separator; auto.
Qed.

Lemma parse_encodeMember (member : string * Js.value) :
  (let '(key, value) := Form.cut "=" (encodeMember member) in
   (Form.percentDecode key, Form.percentDecode value))
  = (fst member, Js.to_string (snd member)).
Proof.
  unfold encodeMember.
  change ("=" +++ ?x) with (String "=" x).
  rewrite cut_append by (apply encode_no_separator; auto).
  now rewrite !decode_encode.
Qed.

Lemma join_nonempty (sep : string) (part : string) (parts : list string) :
  part <> "" -> Js.join sep (part :: parts) <> "".
Proof.
  unfold Js.join. destruct parts; simpl; [auto|].
  destruct part; [congruence | discriminate].
Qed.

Lemma encodeMember_nonempty (member : string * Js.value) :
  encodeMember member <> "".
Proof.
  unfold encodeMember. intros H.
  assert (L : String.length
                (Js.encodeURIComponent (fst member) +++ "=" +++
                 Js.encodeURIComponent (Js.to_string (snd member))) = 0)
    by now rewrite H.
  rewrite !length_append in L. simpl in L. lia.
Qed.

(** The body reads back as the members written. *)
Lemma form_body_parse_lemma (data : list (string * Js.value)) :
  Form.parse (encodeQueryData data) = writtenMembers data.
Proof.
  rewrite encodeQueryData_spec. unfold Form.parse, writtenMembers.
  set (members := filter (fun member => Js.is_defined (snd member)) data).
  destruct members as [|member members]; [reflexivity|].
  destruct (String.eqb_spec (Js.join "&" (map encodeMember (member :: members))) "")
    as [E|_].
  { exfalso. revert E. apply join_nonempty, encodeMember_nonempty. }
  rewrite (splitOn_join "&"); [| discriminate |].
  - rewrite map_map. apply map_ext. intros m. apply parse_encodeMember.
  - apply Forall_forall. intros part Hin. apply in_map_iff in Hin as (m & <- & _).
    apply encodeMember_clean.
Qed.

(* ================================================================= *)
(** ** The log of a run *)

Lemma logged_app (t1 t2 : Trace) : logged (t1 ++ t2) = logged t1 ++ logged t2.
Proof. apply flat_map_app. Qed.

Lemma logOf_bind {A B} (m1 m2 : M A) (k1 k2 : A -> M B) :
  logOf m1 = logOf m2 ->
  (forall a, logOf (k1 a) = logOf (k2 a)) ->
  logOf (bind m1 k1) = logOf (bind m2 k2).
Proof.
  intros Hm Hk.
  destruct m1 as [[t1 [a1| |e1]]|], m2 as [[t2 [a2| |e2]]|];
    simpl in Hm; try discriminate; try reflexivity;
    injection Hm as Hl; subst; simpl.
  - specialize (Hk a2).
    destruct (k1 a2) as [[u1 c1]|], (k2 a2) as [[u2 c2]|];
      simpl in *; try discriminate; [|reflexivity].
    injection Hk as Hu ->. now rewrite !logged_app, Hl, Hu.
  - now rewrite Hl.
  - now rewrite Hl.
Qed.

Lemma logOf_tryCatch {A} (m1 m2 : M A) (h1 h2 : Js.Error -> M A) :
  logOf m1 = logOf m2 ->
  (forall e, logOf (h1 e) = logOf (h2 e)) ->
  logOf (tryCatch m1 h1) = logOf (tryCatch m2 h2).
Proof.
  intros Hm Hh.
  destruct m1 as [[t1 [a1| |e1]]|], m2 as [[t2 [a2| |e2]]|];
    simpl in Hm; try discriminate; try exact Hm.
  injection Hm as Hl ->. simpl. specialize (Hh e2).
  destruct (h1 e2) as [[u1 c1]|], (h2 e2) as [[u2 c2]|];
    simpl in *; try discriminate; [|reflexivity].
  injection Hh as Hu ->. now rewrite !logged_app, Hl, Hu.
Qed.

Lemma logOf_call {A} (a : A) (m1 m2 : M A) :
  logOf m1 = logOf m2 -> logOf (call a m1) = logOf (call a m2).
Proof.
  intros Hm.
  destruct m1 as [[t1 [a1| |e1]]|], m2 as [[t2 [a2| |e2]]|];
    simpl in Hm; try discriminate; try exact Hm.
  injection Hm as Hl. simpl. now rewrite Hl.
Qed.

Lemma logOf_fetch {A} (r1 r2 : Request) (reply : Outcome A) :
  logOf (fetch r1 reply) = logOf (fetch r2 reply).
Proof. destruct reply; reflexivity. Qed.

Section MoreProperties.

Context {stringify_user : Stringify User.t}.
Context {stringify_data : Stringify UsersList.t}.

Lemma logOf_fetchPage token1 token2 team1 team2 limit cursor gs reply :
  logOf (fetchPage token1 team1 limit cursor gs reply)
  = logOf (fetchPage token2 team2 limit cursor gs reply).
Proof.
  unfold fetchPage. apply logOf_bind; [apply logOf_fetch | reflexivity].
Qed.

Lemma logOf_doWhile token1 token2 team1 team2 limit replies cursor gs :
  logOf (doWhile token1 team1 limit replies cursor gs)
  = logOf (doWhile token2 team2 limit replies cursor gs).
Proof.
  revert cursor gs. induction replies as [|reply replies IH]; intros cursor gs.
  - reflexivity.
  - simpl. apply logOf_bind; [apply logOf_fetchPage|].
    intros [gs' cursor']. destruct (Js.truthy cursor'); [apply IH | reflexivity].
Qed.

Lemma logOf_postToSlack channel message token1 token2 reply :
  logOf (postToSlack channel message token1 reply)
  = logOf (postToSlack channel message token2 reply).
Proof.
  unfold postToSlack. apply logOf_call, logOf_tryCatch; [|reflexivity].
  apply logOf_bind; [apply logOf_fetch | reflexivity].
Qed.

(** The callback starts by logging the user in full. *)
Lemma processUser_logs (u : User.t) (gs : list Guest.t) :
  exists t,
    processUser u gs
    = Some (Log ("Processing user: " +++ JSON_stringify u) :: t,
            Normal (gs ++ matches [u])).
Proof.
  unfold processUser, matches, selected. simpl.
  destruct (User.is_deleted u); simpl.
  { rewrite app_nil_r. eexists. reflexivity. }
  destruct (notGuest u); simpl.
  { rewrite app_nil_r. eexists. reflexivity. }
  destruct (excludedEmail u); simpl.
  { rewrite app_nil_r. eexists. reflexivity. }
  destruct (noExpiration u); simpl.
  - destruct (creationTimeOf_spec u) as (t & E & R).
    rewrite (bind_Some _ _ _ _ E). simpl. eexists. reflexivity.
  - rewrite app_nil_r. eexists. reflexivity.
Qed.

Lemma forEach_logs (users : list User.t) (gs : list Guest.t) :
  exists t,
    forEach processUser users gs = Some (t, Normal (gs ++ matches users))
    /\ forall u, In u users ->
                 In (Log ("Processing user: " +++ JSON_stringify u)) t.
Proof.
  revert gs. induction users as [|v users IH]; intros gs; simpl.
  - exists []. rewrite app_nil_r. split; [reflexivity | intros u []].
  - destruct (processUser_logs v gs) as (t1 & E1).
    destruct (IH (gs ++ matches [v])) as (t2 & E2 & H2).
    rewrite (bind_Some _ _ _ _ E1), E2. eexists. split.
    + f_equal. f_equal. f_equal. rewrite <- app_assoc. f_equal.
      change (v :: users) with ([v] ++ users). now rewrite matches_app.
    + intros u [<-|Hu]; [now left|]. right. apply in_or_app. right. now apply H2.
Qed.

Lemma fetchPage_logs token team limit cursor gs reply :
  isPage reply = true ->
  exists t,
    fetchPage token team limit cursor gs reply
    = Some (t, Normal (gs ++ matches (usersOf reply), cursorOf reply))
    /\ forall u, In u (usersOf reply) ->
                 In (Log ("Processing user: " +++ JSON_stringify u)) t.
Proof.
  destruct reply as [e|content data]; simpl; [discriminate|].
  unfold fetchPage. simpl.
  destruct (UsersList.ok data); simpl; [|discriminate].
  destruct (UsersList.users data) as [us|]; [|discriminate].
  intros _. destruct (forEach_logs us gs) as (t & E & H).
  rewrite (bind_Some _ _ _ _ E). simpl.
  eexists. split; [reflexivity|].
  intros u Hu. right. right. rewrite app_nil_r. now apply H.
Qed.

Lemma doWhile_logs token team limit pre last cursor gs :
  forallb continues pre = true ->
  final last = true ->
  exists t,
    doWhile token team limit (pre ++ [last]) cursor gs
    = Some (t, Normal (gs ++ matches (flat_map usersOf (pre ++ [last]))))
    /\ forall u, In u (flat_map usersOf (pre ++ [last])) ->
                 In (Log ("Processing user: " +++ JSON_stringify u)) t.
Proof.
  revert cursor gs. induction pre as [|reply pre IH]; intros cursor gs Hpre Hl.
  - destruct (final_stops last Hl) as [Hs Hp].
    destruct (fetchPage_logs token team limit cursor gs last Hp) as (t & E & H).
    unfold continues in Hs. rewrite Hp in Hs. simpl in Hs.
    simpl. rewrite (bind_Some _ _ _ _ E), Hs. simpl.
    exists (t ++ []). rewrite !app_nil_r. split; [reflexivity | exact H].
  - simpl in Hpre. apply andb_true_iff in Hpre as [Hc Hpre].
    unfold continues in Hc. apply andb_true_iff in Hc as [Hp Ht].
    destruct (fetchPage_logs token team limit cursor gs reply Hp) as (t & E & H).
    destruct (IH (cursorOf reply) (gs ++ matches (usersOf reply)) Hpre Hl)
      as (t' & E' & H').
    simpl. rewrite (bind_Some _ _ _ _ E), Ht, E'.
    exists (t ++ t'). split.
    + rewrite matches_app, app_assoc. reflexivity.
    + intros u Hu. apply in_app_or in Hu. apply in_or_app.
      destruct Hu as [Hu|Hu]; [left; now apply H | right; now apply H'].
Qed.

Lemma doWhile_not_ok token team limit pre content data rest cursor gs :
  forallb continues pre = true ->
  UsersList.ok data = false ->
  exists t,
    doWhile token team limit (pre ++ Responds content data :: rest) cursor gs
    = Some (t ++ [Log ("Error fetching data from Slack API: " +++
                       Js.show (UsersList.error data));
                  Log ("Response: " +++ content)],
            Returned).
Proof.
  revert cursor gs. induction pre as [|reply pre IH]; intros cursor gs Hpre Hok.
  - simpl. unfold fetchPage. simpl. rewrite Hok. simpl.
    exists [Fetch (listRequest token team limit cursor)]. reflexivity.
  - simpl in Hpre. apply andb_true_iff in Hpre as [Hc Hpre].
    unfold continues in Hc. apply andb_true_iff in Hc as [Hp Ht].
    destruct (fetchPage_page token team limit cursor gs reply Hp) as (t & E & R).
    destruct (IH (cursorOf reply) (gs ++ matches (usersOf reply)) Hpre Hok)
      as (t' & E').
    simpl. rewrite (bind_Some _ _ _ _ E), Ht, E'.
    eexists. rewrite app_assoc. reflexivity.
Qed.

(* --------------------------------------------------------------- *)
(** *** What a run sends and what it logs *)

(** What the receiving end reads from the body of a page request: the
    token, the team, the limit and, exactly when the cursor is not empty,
    the cursor, each as it was given, whatever characters it contains.
    Hence two page requests of a run with the same body have the same
    cursor. *)
Theorem page_request_reads_back (token team : string) (limit : Z) :
  (forall cursor,
      Form.parse (payload (listRequest token team limit cursor))
      = [("token", token); ("team_id", team); ("limit", Js.string_of_Z limit)]
        ++ (if cursor =? "" then [] else [("cursor", cursor)]))
  /\ (forall cursor1 cursor2,
        payload (listRequest token team limit cursor1)
        = payload (listRequest token team limit cursor2) ->
        cursor1 = cursor2).
Proof.
  assert (H : forall cursor,
             Form.parse (payload (listRequest token team limit cursor))
             = [("token", token); ("team_id", team);
                ("limit", Js.string_of_Z limit)]
               ++ (if cursor =? "" then [] else [("cursor", cursor)])).
  { intros cursor. simpl payload. rewrite form_body_parse_lemma.
    unfold listPayload, Js.truthy. now destruct (cursor =? ""). }
  split; [exact H|].
  intros c1 c2 E. pose proof (H c1) as H1. rewrite E, (H c2) in H1.
  apply app_inv_head in H1.
  destruct (String.eqb_spec c1 ""), (String.eqb_spec c2 ""); subst;
    try discriminate; [reflexivity | now injection H1].
Qed.

(** A run never ends while every response is a page that carries a
    cursor: there is no cap on the number of pages and no check that the
    cursor changes, so however many such replies there are, the script asks
    for one more. *)
Theorem endless_cursor_never_ends (cfg : Config) (mock : Mock) :
  configured cfg = true ->
  forallb continues (admin_users_list mock) = true ->
  notifySlackAboutGuestsWithoutExpiration cfg mock = None.
Proof.
  intros Hc Hall. unfold notifySlackAboutGuestsWithoutExpiration.
  rewrite (notifyBody_configured cfg mock Hc).
  now rewrite (doWhile_starved _ _ _ _ _ _ Hall).
Qed.

(** Whatever the configuration and the answers, a run that ends has sent
    its page requests first, each a [post] to [admin.users.list] with the
    configured token and team and the limit 100, and then at most one
    request to [chat.postMessage]; when it has sent one, its text lists at
    least one user, every user it lists passes the four tests, and the
    count logged is the number of users listed. *)
Theorem run_posts_at_most_once (cfg : Config) (mock : Mock)
        (t : Trace) (c : Completion unit) :
  notifySlackAboutGuestsWithoutExpiration cfg mock = Some (t, c) ->
  exists pages,
    requests t = pages ++ posts t
    /\ Forall (Sent.page_request (tokenOf cfg) (teamId cfg)) pages
    /\ (posts t = []
        \/ exists users,
            users <> []
            /\ (forall u, In u users -> Spec.passes_filter u)
            /\ posts t
               = [Sent.post (tokenOf cfg) (channel cfg) (Sent.message users)]
            /\ In (Log ("Guests without expiration found: " +++
                        Js.string_of_nat (length users))) t).
Proof.
  assert (Hpages : forall cs,
             Forall (Sent.page_request (tokenOf cfg) (teamId cfg))
                    (map (listRequest (tokenOf cfg) (teamId cfg) 100) cs)).
  { intros cs. apply Forall_forall. intros r Hr.
    apply in_map_iff in Hr as (cursor & <- & _).
    repeat split. exists cursor. simpl payload. rewrite form_body_parse_lemma.
    unfold listPayload, Js.truthy. now destruct (cursor =? ""). }
  intros E. destruct (configured cfg) eqn:Hc.
  - destruct (doWhile (tokenOf cfg) (teamId cfg) 100 (admin_users_list mock) "" [])
      as [[tl [gs| |e]]|] eqn:El.
    + destruct (doWhile_requests _ _ _ _ _ _ _ _ El) as (cs & R).
      destruct (doWhile_normal _ _ _ _ _ _ _ _ El) as (us & Hgs).
      simpl app in Hgs. subst gs.
      destruct (notify_loop_normal cfg mock tl _ Hc El) as (t' & En & Hnil & Hpost).
      rewrite En in E. injection E as <- _.
      exists (map (listRequest (tokenOf cfg) (teamId cfg) 100) cs).
      rewrite posts_app, (posts_of_requests tl _ _ _ _ R), posts_log.
      rewrite requests_app, R. simpl app.
      change (requests (Log ?m :: ?x)) with (requests x).
      split; [|split; [apply Hpages|]].
      * destruct (matches us) eqn:Hm.
        -- now rewrite (Hnil eq_refl).
        -- unfold posts. rewrite Hpost by discriminate. reflexivity.
      * unfold matches in *. destruct (filter selected us) as [|u0 sel] eqn:Hsel.
        -- left. now rewrite (Hnil eq_refl).
        -- right. exists (u0 :: sel). split; [discriminate|]. split.
           ++ intros u Hu. rewrite <- Hsel in Hu. apply filter_In in Hu.
              now apply selected_spec.
           ++ unfold posts. rewrite Hpost by discriminate.
              rewrite postOptions_post. split; [reflexivity|].
              apply in_or_app. right. left. now rewrite length_map.
    + destruct (doWhile_requests _ _ _ _ _ _ _ _ El) as (cs & R).
      rewrite (notify_loop_returned cfg mock tl Hc El) in E. injection E as <- _.
      exists (map (listRequest (tokenOf cfg) (teamId cfg) 100) cs).
      rewrite (posts_of_requests tl _ _ _ _ R), app_nil_r.
      split; [exact R|]. split; [apply Hpages | now left].
    + destruct (doWhile_requests _ _ _ _ _ _ _ _ El) as (cs & R).
      rewrite (notify_loop_thrown cfg mock tl e Hc El) in E. injection E as <- _.
      exists (map (listRequest (tokenOf cfg) (teamId cfg) 100) cs).
      rewrite posts_app, requests_app, (posts_of_requests tl _ _ _ _ R), R.
      rewrite posts_log. change (posts []) with (@nil Request).
      split; [reflexivity|]. split; [apply Hpages | now left].
    + unfold notifySlackAboutGuestsWithoutExpiration in E.
      rewrite (notifyBody_configured cfg mock Hc), El in E. discriminate.
  - exists []. revert E Hc.
    unfold configured, notifySlackAboutGuestsWithoutExpiration, notifyBody.
    destruct (SLACK_USER_TOKEN cfg) as [token|]; simpl.
    + destruct (Js.truthy token); simpl.
      * intros E Ht. rewrite Ht in E. simpl in E. injection E as <- _.
        split; [reflexivity|]. split; [constructor | now left].
      * intros E _. injection E as <- _.
        split; [reflexivity|]. split; [constructor | now left].
    + intros E _. injection E as <- _.
      split; [reflexivity|]. split; [constructor | now left].
Qed.

(** The token does not reach the log: two runs against the same answers
    that differ only in their (non-empty) token and team identifier write
    the same log lines and end the same way. *)
Theorem token_is_not_logged (cfg1 cfg2 : Config) (mock : Mock) :
  configured cfg1 = true ->
  configured cfg2 = true ->
  channel cfg1 = channel cfg2 ->
  logOf (notifySlackAboutGuestsWithoutExpiration cfg1 mock)
  = logOf (notifySlackAboutGuestsWithoutExpiration cfg2 mock).
Proof.
  intros H1 H2 Hch. unfold notifySlackAboutGuestsWithoutExpiration.
  apply logOf_call, logOf_tryCatch; [|reflexivity].
  rewrite (notifyBody_configured cfg1 mock H1), (notifyBody_configured cfg2 mock H2).
  apply logOf_bind; [apply logOf_doWhile|].
  intros gs. apply logOf_bind; [reflexivity|]. intros _.
  destruct (0 <? length gs)%nat; [|reflexivity].
  rewrite Hch. apply logOf_postToSlack.
Qed.

(** Every user of every page of a paginated list is written to the log in
    full, by the line "Processing user: " followed by its JSON text,
    whether or not it is a guest and whether or not it is reported. *)
Theorem every_user_is_logged (cfg : Config) (mock : Mock) :
  configured cfg = true ->
  paginated (admin_users_list mock) = true ->
  exists t,
    notifySlackAboutGuestsWithoutExpiration cfg mock = Some (t, Normal tt)
    /\ forall u, In u (flat_map usersOf (admin_users_list mock)) ->
                 In (Log ("Processing user: " +++ JSON_stringify u)) t.
Proof.
  intros Hc Hp.
  destruct (paginated_split _ Hp) as (pre & last & Er & Hpre & Hl).
  destruct (doWhile_logs (tokenOf cfg) (teamId cfg) 100 pre last "" [] Hpre Hl)
    as (tl & E & H).
  rewrite <- Er in E, H. simpl app in E.
  destruct (notify_loop_normal cfg mock tl _ Hc E) as (t' & En & _).
  eexists. split; [exact En|].
  intros u Hu. apply in_or_app. left. now apply H.
Qed.

(** A guest that is not deleted is skipped for its address exactly when
    the address ends with "@domain.com", letter for letter: the callback
    then logs the line "Skipping user (OnePeloton email)" and leaves the
    array as it was.  A guest without address, or with an address in
    another domain or in other letter case, is not skipped by this test. *)
Theorem excluded_exactly_by_suffix (u : User.t) (gs : list Guest.t) :
  User.is_deleted u = false ->
  notGuest u = false ->
  exists t c,
    processUser u gs = Some (t, c)
    /\ (In (Log ("Skipping user (OnePeloton email): " +++ Js.show (User.id u))) t
        <-> exists name, User.email u = Some (name +++ "@domain.com"))
    /\ ((exists name, User.email u = Some (name +++ "@domain.com")) ->
        c = Normal gs).
Proof.
  intros Hd Hg. pose proof (excludedEmail_spec u) as Hx.
  unfold Spec.in_excluded_domain, excluded_domain in Hx.
  unfold processUser. rewrite Hd, Hg.
  destruct (excludedEmail u).
  - eexists _, _. split; [reflexivity|]. split.
    + split; [intros _; now apply Hx | intros _; simpl; auto].
    + reflexivity.
  - assert (Hno : ~ exists name, User.email u = Some (name +++ "@domain.com")).
    { intros H. apply Hx in H. discriminate. }
    destruct (noExpiration u).
    + destruct (creationTimeOf_spec u) as (tc & Ec & Rc).
      unfold creationTimeOf in *.
      destruct (User.date_created u) as [seconds|];
        [destruct (seconds =? 0)%Z;
         [|destruct (Js.toISOString (seconds * 1000))]|];
        eexists _, _; (split; [reflexivity|]); split;
        try (intros H; exfalso; exact (Hno H));
        (split; [simpl; intros H; exfalso;
                 repeat (destruct H as [H|H]; [discriminate H|]); exact H
                | intros H; exfalso; exact (Hno H)]).
    + eexists _, _. split; [reflexivity|]. split.
      * split; [simpl; intros [H|[]]; discriminate H
               | intros H; exfalso; exact (Hno H)].
      * intros H. exfalso. exact (Hno H).
Qed.

(** When the request after [pre] continuing pages is answered by a
    response that is not [ok], the last two lines of the log are the error
    code of the response and its raw text, and the run ends there. *)
Theorem failed_page_is_logged (cfg : Config) (mock : Mock)
        (pre rest : list (Outcome UsersList.t))
        (content : string) (data : UsersList.t) :
  configured cfg = true ->
  admin_users_list mock = pre ++ Responds content data :: rest ->
  forallb continues pre = true ->
  UsersList.ok data = false ->
  exists t,
    notifySlackAboutGuestsWithoutExpiration cfg mock
    = Some (t ++ [Log ("Error fetching data from Slack API: " +++
                       Js.show (UsersList.error data));
                  Log ("Response: " +++ content)],
            Normal tt).
Proof.
  intros Hc Hm Hpre Hok.
  destruct (doWhile_not_ok (tokenOf cfg) (teamId cfg) 100 pre content data rest
              "" [] Hpre Hok) as (t & E).
  rewrite <- Hm in E. exists t. now apply notify_loop_returned.
Qed.

(** [postToSlack] logs "Message posted successfully to Slack channel ..."
    exactly when the response says [ok].  When Slack answers with an
    error, the error code and the raw response are logged instead, and
    nothing else; when the request throws, the only line logged is "An
    error occurred while posting to Slack: ..." with the message of the
    error. *)
Theorem success_logged_iff_ok (channel message token : string)
        (reply : Outcome PostMessage.t) :
  exists t,
    postToSlack channel message token reply = Some (t, Normal tt)
    /\ (In (Log ("Message posted successfully to Slack channel " +++ channel)) t
        <-> exists content result,
              reply = Responds content result /\ PostMessage.ok result = true)
    /\ (forall content result,
          reply = Responds content result ->
          PostMessage.ok result = false ->
          t = [Fetch (postOptions channel message token);
               Log ("Error posting to Slack: " +++ Js.show (PostMessage.error result));
               Log ("Full response: " +++ content)])
    /\ (forall e,
          reply = Throws e ->
          t = [Fetch (postOptions channel message token);
               Log ("An error occurred while posting to Slack: " +++ Js.message e)]).
Proof.
  unfold postToSlack. destruct reply as [e|content result]; simpl.
  - eexists. split; [reflexivity|]. split; [|split; [discriminate|]].
    + split.
      * intros [H|[H|[]]]; discriminate H.
      * intros (? & ? & H & _). discriminate H.
    + intros e' H. injection H as <-. reflexivity.
  - destruct (PostMessage.ok result) eqn:Hok; simpl.
    + eexists. split; [reflexivity|]. split; [|split; [|discriminate]].
      * split; [intros _; eauto | intros _; right; now left].
      * intros ? ? H. injection H as <- <-. congruence.
    + eexists. split; [reflexivity|]. split; [|split; [|discriminate]].
      * split.
        -- intros [H|[H|[H|[]]]]; discriminate H.
        -- intros (? & ? & H & Ht). injection H as <- <-. congruence.
      * intros ? ? H _. injection H as <- <-. reflexivity.
Qed.

End MoreProperties.

(* ================================================================= *)
(** ** encodeQueryData, read back *)

(** The body [encodeQueryData] writes reads back as the members it was
    written from: the keys and the [ToString] of the values of the members
    that are not [undefined], in the order of the object, whatever
    characters they contain.  The body is empty exactly when no member is
    written, and two objects with the same body have the same written
    members. *)
Theorem form_body_reads_back (data : list (string * Js.value)) :
  Form.parse (encodeQueryData data) = writtenMembers data
  /\ (encodeQueryData data = "" <-> writtenMembers data = [])
  /\ (forall data',
        encodeQueryData data = encodeQueryData data' ->
        writtenMembers data = writtenMembers data').
Proof.
  split; [apply form_body_parse_lemma|]. split.
  - split.
    + intros E. rewrite <- form_body_parse_lemma, E. reflexivity.
    + unfold writtenMembers. intros E. apply map_eq_nil in E.
      rewrite encodeQueryData_spec, E. reflexivity.
  - intros data' E.
    now rewrite <- (form_body_parse_lemma data), E, form_body_parse_lemma.
Qed.

(** The body [encodeQueryData] writes is made of unreserved characters,
    [%], [&] and [=] only: no blank, quote, line end or byte above 127,
    whatever the keys and values. *)
Theorem form_body_characters (data : list (string * Js.value)) :
  Form.every Form.formChar (encodeQueryData data) = true.
Proof.
  rewrite encodeQueryData_spec.
  set (members := filter (fun member => Js.is_defined (snd member)) data).
  assert (H : Forall (fun part => Form.every Form.formChar part = true)
                     (map encodeMember members)).
  { apply Forall_forall. intros part Hin. apply in_map_iff in Hin as (m & <- & _).
    unfold encodeMember. rewrite !every_append, !encode_formChars. reflexivity. }
  unfold Js.join. induction (map encodeMember members) as [|part parts IH];
    [reflexivity|].
  inversion H as [|? ? Hpart Hparts]; subst.
  destruct parts as [|next parts]; [exact Hpart|].
  change (String.concat "&" (part :: next :: parts))
    with (part +++ "&" +++ String.concat "&" (next :: parts)).
  rewrite !every_append, Hpart, (IH Hparts). reflexivity.
Qed.

(* ================================================================= *)
(** ** The creation time of an entry *)

Lemma length_pad_left (width : nat) (s : string) :
  width <= String.length (Js.pad_left width s).
Proof.
  unfold Js.pad_left. rewrite length_append.
  assert (H : String.length (Js.zeros (width - String.length s))
              = width - String.length s).
  { induction (width - String.length s) as [|n IH]; simpl; [reflexivity | now rewrite IH]. }
  lia.
Qed.

Lemma length_iso_year (y : Z) : 4 <= String.length (Js.iso_year y).
Proof.
  unfold Js.iso_year, Js.digits.
  destruct ((0 <=? y) && (y <=? 9999))%Z; [apply length_pad_left|].
  destruct (y <? 0)%Z; rewrite length_append;
    match goal with
    | |- context [Js.pad_left ?w ?s] => pose proof (length_pad_left w s)
    end; simpl; lia.
Qed.

(** An ISO text has at least 24 characters. *)
Lemma length_toISOString (ms : Z) (text : string) :
  Js.toISOString ms = inr text -> 24 <= String.length text.
Proof.
  unfold Js.toISOString. destruct (Z.abs ms >? Js.max_time)%Z; [discriminate|].
  destruct (Js.civil_from_days (ms / 86400000)) as [[y m] d].
  intros E. injection E as <-.
  unfold Js.digits.
  repeat (first [rewrite length_append | progress cbn [String.length]]).
  pose proof (length_iso_year y).
  repeat match goal with
         | |- context [String.length (Js.pad_left ?w ?s)] =>
             let H := fresh "L" in
             pose proof (length_pad_left w s) as H;
             generalize dependent (String.length (Js.pad_left w s)); intros
         end.
  lia.
Qed.

(** The creation time of an entry is "Unknown" exactly when
    [date_created] is missing, is zero, or is beyond 8 640 000 000 000
    seconds from the epoch in either direction (the range of a [Date]);
    in every other case it is an ISO text of at least 24 characters. *)
Theorem unknown_creation_time_iff (u : User.t) :
  (Guest.creation_time (entryOf u) = "Unknown"
   <-> User.date_created u = None
       \/ User.date_created u = Some 0%Z
       \/ exists seconds,
            User.date_created u = Some seconds
            /\ (Z.abs seconds > 8640000000000)%Z)
  /\ (Guest.creation_time (entryOf u) <> "Unknown" ->
      24 <= String.length (Guest.creation_time (entryOf u))).
Proof.
  simpl. unfold creationText.
  destruct (User.date_created u) as [seconds|].
  2: { split; [|congruence]. split; [now left | reflexivity]. }
  destruct (Z.eqb_spec seconds 0) as [->|Hz].
  { split; [|congruence]. split; [right; now left | reflexivity]. }
  destruct (Js.toISOString (seconds * 1000)) as [e|text] eqn:E.
  - split; [|congruence]. split; [|reflexivity]. intros _. right. right.
    exists seconds. split; [reflexivity|].
    unfold Js.toISOString in E.
    destruct (Z.gtb_spec (Z.abs (seconds * 1000)) Js.max_time) as [Hgt|Hle].
    + unfold Js.max_time in Hgt. rewrite Z.abs_mul in Hgt. simpl Z.abs in Hgt. lia.
    + destruct (Js.civil_from_days (seconds * 1000 / 86400000)) as [[y m] d].
      discriminate.
  - pose proof (length_toISOString _ _ E) as L. split.
    + split.
      * intros ->. simpl in L. lia.
      * intros [H|[H|(s & H & Hs)]]; [discriminate | congruence |].
        injection H as <-. exfalso.
        unfold Js.toISOString in E.
        destruct (Z.gtb_spec (Z.abs (seconds * 1000)) Js.max_time) as [Hgt|Hle];
          [discriminate|].
        unfold Js.max_time in Hle. rewrite Z.abs_mul in Hle. simpl Z.abs in Hle. lia.
    + intros _. exact L.
Qed.

(* ================================================================= *)
(** ** The further theorems at the examples *)

Lemma page_request_witness :
  Form.parse (payload (listRequest "xoxp-test" "T&1" 100 "dXNlcjpVNQ=="))
  = [("token", "xoxp-test"); ("team_id", "T&1"); ("limit", "100");
     ("cursor", "dXNlcjpVNQ==")].
Proof.
  exact (proj1 (page_request_reads_back "xoxp-test" "T&1" 100) "dXNlcjpVNQ==").
Defined.

Lemma endless_cursor_witness :
  configured Demo.cfg = true
  /\ forallb continues (admin_users_list Demo2.same_cursor) = true
  /\ @notifySlackAboutGuestsWithoutExpiration Sample.user Sample.data
       Demo.cfg Demo2.same_cursor = None.
Proof.
  repeat (split; [reflexivity|]).
  exact (@endless_cursor_never_ends Sample.user Sample.data
           Demo.cfg Demo2.same_cursor eq_refl eq_refl).
Defined.

Lemma run_posts_witness :
  exists t c,
    @notifySlackAboutGuestsWithoutExpiration Sample.user Sample.data
      Demo.cfg Demo.two_pages = Some (t, c)
    /\ map url (requests t)
       = ["https://slack.com/api/admin.users.list";
          "https://slack.com/api/admin.users.list";
          "https://slack.com/api/chat.postMessage"]
    /\ map (fun r => Form.parse (payload r)) (firstn 2 (requests t))
       = [[("token", "xoxp-test"); ("team_id", "T0001"); ("limit", "100")];
          [("token", "xoxp-test"); ("team_id", "T0001"); ("limit", "100");
           ("cursor", "dXNlcjpVNQ==")]]
    /\ posts t
       = [Sent.post "xoxp-test" "C0001"
            (Sent.message [Demo.ann; Demo.cy; Demo.gus])]
    /\ exists pages,
        requests t = pages ++ posts t
        /\ Forall (Sent.page_request (tokenOf Demo.cfg) (teamId Demo.cfg)) pages
        /\ (posts t = []
            \/ exists users,
                users <> []
                /\ (forall u, In u users -> Spec.passes_filter u)
                /\ posts t
                   = [Sent.post (tokenOf Demo.cfg) (channel Demo.cfg)
                        (Sent.message users)]
                /\ In (Log ("Guests without expiration found: " +++
                            Js.string_of_nat (length users))) t).
Proof.
  eexists _, _. split; [reflexivity|].
  split; [reflexivity|]. split; [reflexivity|]. split; [reflexivity|].
  exact (@run_posts_at_most_once Sample.user Sample.data
           Demo.cfg Demo.two_pages _ _ eq_refl).
Defined.

Lemma token_witness :
  configured Demo.cfg = true
  /\ configured Demo2.cfg = true
  /\ channel Demo.cfg = channel Demo2.cfg
  /\ logOf (@notifySlackAboutGuestsWithoutExpiration Sample.user Sample.data
              Demo.cfg Demo.two_pages)
     = logOf (@notifySlackAboutGuestsWithoutExpiration Sample.user Sample.data
                Demo2.cfg Demo.two_pages).
Proof.
  repeat (split; [reflexivity|]).
  exact (@token_is_not_logged Sample.user Sample.data Demo.cfg Demo2.cfg
           Demo.two_pages eq_refl eq_refl eq_refl).
Defined.

Lemma every_user_witness :
  configured Demo.cfg = true
  /\ paginated (admin_users_list Demo.two_pages) = true
  /\ exists t,
      @notifySlackAboutGuestsWithoutExpiration Sample.user Sample.data
        Demo.cfg Demo.two_pages = Some (t, Normal tt)
      /\ forall u, In u (flat_map usersOf (admin_users_list Demo.two_pages)) ->
                   In (Log ("Processing user: " +++ Sample.user u)) t.
Proof.
  repeat (split; [reflexivity|]).
  exact (@every_user_is_logged Sample.user Sample.data
           Demo.cfg Demo.two_pages eq_refl eq_refl).
Defined.

Lemma excluded_witness :
  User.is_deleted Demo.bob = false
  /\ notGuest Demo.bob = false
  /\ exists t c,
      @processUser Sample.user Demo.bob [] = Some (t, c)
      /\ (In (Log ("Skipping user (OnePeloton email): " +++
                   Js.show (User.id Demo.bob))) t
          <-> exists name, User.email Demo.bob = Some (name +++ "@domain.com"))
      /\ ((exists name, User.email Demo.bob = Some (name +++ "@domain.com")) ->
          c = Normal []).
Proof.
  repeat (split; [reflexivity|]).
  exact (@excluded_exactly_by_suffix Sample.user Demo.bob [] eq_refl eq_refl).
Defined.

Lemma failed_page_logged_witness :
  configured Demo.cfg = true
  /\ forallb continues [Demo.page1] = true
  /\ exists t,
      @notifySlackAboutGuestsWithoutExpiration Sample.user Sample.data
        Demo.cfg Demo.refused
      = Some (t ++ [Log "Error fetching data from Slack API: invalid_auth";
                    Log "Response: invalid_auth"],
              Normal tt).
Proof.
  repeat (split; [reflexivity|]).
  exact (@failed_page_is_logged Sample.user Sample.data Demo.cfg Demo.refused
           [Demo.page1] [Demo.page2] "invalid_auth"
           (UsersList.mk false (Some "invalid_auth") None None)
           eq_refl eq_refl eq_refl eq_refl).
Defined.

Example form_body_example :
  Form.parse "token=xoxp%20test&limit=100&team_id=T%261"
  = [("token", "xoxp test"); ("limit", "100"); ("team_id", "T&1")].
Proof. reflexivity. Qed.
